(** * Banking ledger service: a shallow embedding and its verified properties

    The development follows the layout of the Go repository:

    - [models]: [Account], [Transaction], [TransactionRequest];
    - [internal/db]: the PostgreSQL gateway (accounts table, the row-locked
      balance mutation) and the MongoDB gateway (the transaction log);
    - [internal/queue]: the RabbitMQ gateway (publish, the consumer loop);
    - [internal/service]: [AccountService] and [TransactionService];
    - [internal/api]: the HTTP handlers.

    Modelling decisions.

    - Money.  The accounts table stores [DECIMAL(20,2)]: a row's balance is
      an integer number of hundredths.  The Go code carries amounts and
      balances as [float64].  The development has two layers.  In the first
      an amount is an integer number of hundredths as well and the arithmetic
      is exact; it carries the statements about control flow, about which
      rows and documents are written, and about the sign test, none of which
      depends on how a sum is rounded.  The second, [F64], has the
      arithmetic as the code has it: the balance read from the column is the
      nearest [float64], the sum is a [float64] sum, and the column rounds
      what it is handed; it carries the statements about the values returned,
      recorded and committed.
    - Time.  [time.Now()] is a parameter of every operation that stamps a row.
    - Identifiers.  [uuid.New().String()] is a parameter as well.
    - Errors.  A Go [error] is a message ([Errorf]), a message wrapping a
      cause ([Wrapf], the percent-w verb of [fmt.Errorf]), or one of the
      drivers' sentinel and failure values.
    - Infrastructure failures.  Every driver call that can fail takes a
      boolean saying whether it fails in this run. *)

From Stdlib Require Import ZArith Lia Ascii String.
From Stdlib Require PrimFloat FloatOps SpecFloat.
From stdpp Require Import gmap strings list fin_maps sorting.

Local Open Scope string_scope.
Local Open Scope list_scope.
Local Open Scope Z_scope.

(** ** Errors *)

Inductive error : Type :=
| ErrNoRows                                   (* sql.ErrNoRows *)
| ErrDuplicateKey                             (* unique index or primary key violated *)
| ErrDriver                                   (* any other failure of a driver call *)
| ErrUnmarshal                                (* json.Unmarshal failed *)
| ErrSyntax                                   (* strconv.ErrSyntax *)
| ErrRange                                    (* strconv.ErrRange *)
| Errorf (msg : string)                       (* fmt.Errorf without a wrapped cause *)
| Wrapf (msg : string) (cause : error).       (* fmt.Errorf(msg + ": %w", cause) *)

Inductive result (A : Type) : Type :=
| Ok (a : A)
| Err (e : error).
Arguments Ok {A} a.
Arguments Err {A} e.

Definition is_ok {A} (r : result A) : bool :=
  match r with Ok _ => true | Err _ => false end.

(** ** models *)

Definition Time := Z.

Record Account : Type := mkAccount {
  acc_ID        : string;
  acc_Balance   : Z;
  acc_CreatedAt : Time;
  acc_UpdatedAt : Time
}.

Definition TransactionType := string.
Definition Deposit    : TransactionType := "deposit".
Definition Withdrawal : TransactionType := "withdrawal".

Definition TransactionStatus := string.
Definition Pending   : TransactionStatus := "pending".
Definition Completed : TransactionStatus := "completed".
Definition Failed    : TransactionStatus := "failed".

Record Transaction : Type := mkTransaction {
  tx_ID            : string;
  tx_AccountID     : string;
  tx_Type          : TransactionType;
  tx_Amount        : Z;
  tx_Status        : TransactionStatus;
  tx_Reference     : string;
  tx_BalanceBefore : Z;
  tx_BalanceAfter  : Z;
  tx_CreatedAt     : Time;
  tx_UpdatedAt     : Time
}.

Record TransactionRequest : Type := mkTransactionRequest {
  req_AccountID : string;
  req_Type      : TransactionType;
  req_Amount    : Z;
  req_Reference : string
}.

(** ** internal/db: PostgreSQL *)

(** The accounts table, keyed by its primary key [id]. *)
Abbreviation Table := (gmap string Account).

(** A [sql.Tx]: the committed table it was opened on and the working copy
    its statements write to.  The row lock taken by [SELECT ... FOR UPDATE]
    keeps other writers of the row out until the scope ends, so the row read
    is the row written. *)
Record SqlTx : Type := mkSqlTx {
  sql_base : Table;
  sql_work : Table
}.

Definition BeginTx (db : Table) : SqlTx := mkSqlTx db db.
Definition Commit (t : SqlTx) : Table := sql_work t.
Definition Rollback (t : SqlTx) : Table := sql_base t.

(** [UPDATE accounts SET balance = $1, updated_at = $2 WHERE id = $3] *)
Definition exec_update_balance (t : SqlTx) (newBalance : Z) (now : Time) (id : string) : SqlTx :=
  mkSqlTx (sql_base t)
          (alter (fun a => mkAccount (acc_ID a) newBalance (acc_CreatedAt a) now) id (sql_work t)).

(** [SELECT balance FROM accounts WHERE id = $1 FOR UPDATE] *)
Definition query_balance_for_update (t : SqlTx) (id : string) (fails : bool) : result Z :=
  if fails then Err ErrDriver
  else match sql_work t !! id with
       | Some a => Ok (acc_Balance a)
       | None => Err ErrNoRows
       end.

(** Which driver calls of one [UpdateAccountBalance] fail. *)
Record TxFaults : Type := mkTxFaults {
  begin_fails  : bool;
  select_fails : bool;
  exec_fails   : bool;
  commit_fails : bool
}.

Definition no_tx_faults : TxFaults := mkTxFaults false false false false.

Module Postgres.

(** [Postgres.CreateAccount]: [INSERT ... RETURNING]. *)
Definition CreateAccount (db : Table) (initialBalance : Z) (id : string) (now : Time)
    (fails : bool) : Table * result Account :=
  if fails then (db, Err (Wrapf "failed to create account" ErrDriver))
  else match db !! id with
       | Some _ => (db, Err (Wrapf "failed to create account" ErrDuplicateKey))
       | None =>
           let account := mkAccount id initialBalance now now in
           (<[id := account]> db, Ok account)
       end.

(** [Postgres.GetAccount] *)
Definition GetAccount (db : Table) (id : string) (fails : bool) : result Account :=
  if fails then Err (Wrapf "failed to get account" ErrDriver)
  else match db !! id with
       | Some a => Ok a
       | None => Err (Errorf "account not found")
       end.

(** [Postgres.UpdateAccountBalance].  The deferred function rolls the scope
    back on every path that returns an error; the error paths below return
    [Rollback tx] for the table.  On an error Go returns the pair (0, 0)
    next to it, which no caller reads.  Amounts are exact hundredths here:
    this definition carries the control flow and the rows written; the sum
    as the code computes it, in [float64], is [F64.UpdateAccountBalance]. *)
Definition UpdateAccountBalance (db : Table) (id : string) (amount : Z) (now : Time)
    (f : TxFaults) : Table * result (Z * Z) :=
  if begin_fails f then (db, Err (Wrapf "failed to begin transaction" ErrDriver))
  else
    let tx := BeginTx db in
    match query_balance_for_update tx id (select_fails f) with
    | Err e => (Rollback tx, Err (Wrapf "Failed to get current balance" e))
    | Ok currentBalance =>
        let newBalance := currentBalance + amount in
        if newBalance <? 0 then (Rollback tx, Err (Errorf "insufficient funds"))
        else if exec_fails f then (Rollback tx, Err (Wrapf "failed to update balance" ErrDriver))
        else
          let tx := exec_update_balance tx newBalance now id in
          if commit_fails f then (Rollback tx, Err (Wrapf "failed to commit transaction" ErrDriver))
          else (Commit tx, Ok (currentBalance, newBalance))
    end.

End Postgres.

Definition InsufficientFunds : error := Errorf "insufficient funds".

(** ** internal/db: MongoDB *)

(** The [transactions] collection, in insertion order.  It carries a unique
    index on [reference] next to the primary key [_id]. *)
Abbreviation Collection := (list Transaction).

Definition set_ID (t : Transaction) (id : string) : Transaction :=
  mkTransaction id (tx_AccountID t) (tx_Type t) (tx_Amount t) (tx_Status t)
    (tx_Reference t) (tx_BalanceBefore t) (tx_BalanceAfter t) (tx_CreatedAt t) (tx_UpdatedAt t).

Definition set_stamps (t : Transaction) (created updated : Time) : Transaction :=
  mkTransaction (tx_ID t) (tx_AccountID t) (tx_Type t) (tx_Amount t) (tx_Status t)
    (tx_Reference t) (tx_BalanceBefore t) (tx_BalanceAfter t) created updated.

(** The document after
    [$set: {status, balance_before, balance_after, updated_at}]. *)
Definition set_status (status : TransactionStatus) (balanceBefore balanceAfter : Z)
    (now : Time) (t : Transaction) : Transaction :=
  mkTransaction (tx_ID t) (tx_AccountID t) (tx_Type t) (tx_Amount t) status
    (tx_Reference t) balanceBefore balanceAfter (tx_CreatedAt t) now.

Definition has_ID (id : string) (d : Transaction) : bool := bool_decide (tx_ID d = id).
Definition has_Reference (r : string) (d : Transaction) : bool := bool_decide (tx_Reference d = r).
Definition has_AccountID (a : string) (d : Transaction) : bool := bool_decide (tx_AccountID d = a).

(** [collection.FindOne] with a filter. *)
Definition FindOne (p : Transaction -> bool) (c : Collection) : option Transaction :=
  List.find p c.

(** [collection.InsertOne]: the write is refused when the primary key or the
    unique [reference] index already holds the value.  The document is kept
    as given; a BSON date holds milliseconds, so a [Time] of a stored
    document stands for the instant as stored, and the copy the submitter
    holds may carry a finer one. *)
Definition InsertOne (c : Collection) (d : Transaction) (fails : bool)
    : Collection * option error :=
  if fails then (c, Some ErrDriver)
  else if existsb (fun x => has_ID (tx_ID d) x || has_Reference (tx_Reference d) x) c
       then (c, Some ErrDuplicateKey)
       else (c ++ [d], None).

(** [collection.UpdateOne]: the first document matching the filter is
    rewritten; no match is no error. *)
Fixpoint UpdateOne (p : Transaction -> bool) (f : Transaction -> Transaction)
    (c : Collection) : Collection :=
  match c with
  | [] => []
  | d :: c' => if p d then f d :: c' else d :: UpdateOne p f c'
  end.

(** The sort key [created_at: -1]. *)
Definition newer_or_same (a b : Transaction) : Prop := tx_CreatedAt b <= tx_CreatedAt a.

#[global] Instance newer_or_same_dec a b : Decision (newer_or_same a b).
Proof. unfold newer_or_same. apply _. Defined.

(** The cursor's limit: 0 is no limit; a negative limit returns that many
    documents in a single batch. *)
Definition apply_limit (limit : Z) (l : list Transaction) : list Transaction :=
  if limit =? 0 then l else take (Z.to_nat (Z.abs limit)) l.

Module MongoDB.

(** [MongoDB.CreateTransaction].  The argument is a pointer: the id and the
    stamps written here are seen by the caller, so the stamped transaction is
    returned next to the error. *)
Definition CreateTransaction (c : Collection) (tx : Transaction) (uuid : string)
    (now : Time) (fails : bool) : Collection * Transaction * option error :=
  let tx := if bool_decide (tx_ID tx = EmptyString) then set_ID tx uuid else tx in
  let tx := set_stamps tx now now in
  match InsertOne c tx fails with
  | (c', Some e) => (c', tx, Some (Wrapf "failed to insert transaction" e))
  | (c', None) => (c', tx, None)
  end.

(** [MongoDB.GetTransactionByID] *)
Definition GetTransactionByID (c : Collection) (id : string) (fails : bool)
    : result Transaction :=
  if fails then Err (Wrapf "failed to get transaction" ErrDriver)
  else match FindOne (has_ID id) c with
       | Some t => Ok t
       | None => Err (Errorf "transaction not found")
       end.

(** [MongoDB.GetTransactionByReference]: absence is [Ok None] (nil, nil). *)
Definition GetTransactionByReference (c : Collection) (reference : string) (fails : bool)
    : result (option Transaction) :=
  if fails then Err (Wrapf "failed to get transaction by reference" ErrDriver)
  else Ok (FindOne (has_Reference reference) c).

(** [MongoDB.UpdateTransactionStatus] *)
Definition UpdateTransactionStatus (c : Collection) (id : string)
    (status : TransactionStatus) (balanceBefore balanceAfter : Z) (now : Time)
    (fails : bool) : Collection * option error :=
  if fails then (c, Some (Wrapf "failed to update transaction" ErrDriver))
  else (UpdateOne (has_ID id) (set_status status balanceBefore balanceAfter now) c, None).

(** [MongoDB.GetTransactionsByAccountID]: filter on [account_id], sort on
    [created_at] descending, skip [offset], limit [limit].  The server
    refuses a negative skip.  MongoDB promises no order among documents
    with equal [created_at]; here it is the one [merge_sort] leaves. *)
Definition GetTransactionsByAccountID (c : Collection) (accountID : string)
    (limit offset : Z) (fails : bool) : result (list Transaction) :=
  if fails || (offset <? 0) then Err (Wrapf "failed to find transactions" ErrDriver)
  else
    let matching := List.filter (has_AccountID accountID) c in
    let sorted := merge_sort newer_or_same matching in
    Ok (apply_limit limit (drop (Z.to_nat offset) sorted)).

End MongoDB.

(** ** internal/queue: RabbitMQ *)

(** A message body.  [json.Marshal] of a transaction always succeeds and
    [json.Unmarshal] gives the transaction back; any other body is one that
    [json.Unmarshal] refuses. *)
Inductive Body : Type :=
| JSON (tx : Transaction)
| Malformed.

Definition json_Marshal (tx : Transaction) : Body := JSON tx.

Definition json_Unmarshal (b : Body) : result Transaction :=
  match b with
  | JSON tx => Ok tx
  | Malformed => Err ErrUnmarshal
  end.

(** The durable queue [transactions]. *)
Abbreviation Queue := (list Body).

Module RabbitMQ.

(** [RabbitMQ.PublishTransaction] *)
Definition PublishTransaction (q : Queue) (tx : Transaction) (fails : bool)
    : Queue * option error :=
  if fails then (q, Some (Wrapf "failed to publish a message" ErrDriver))
  else (q ++ [json_Marshal tx], None).

End RabbitMQ.

(** ** The three stores together *)

Record World : Type := mkWorld {
  postgres : Table;
  mongodb  : Collection;
  rabbitmq : Queue
}.

Definition with_postgres (w : World) (db : Table) : World :=
  mkWorld db (mongodb w) (rabbitmq w).
Definition with_mongodb (w : World) (c : Collection) : World :=
  mkWorld (postgres w) c (rabbitmq w).
Definition with_rabbitmq (w : World) (q : Queue) : World :=
  mkWorld (postgres w) (mongodb w) q.

(** ** internal/service: AccountService *)

Module AccountService.

(** [AccountService.CreateAccount] *)
Definition CreateAccount (db : Table) (initialBalance : Z) (uuid : string) (now : Time)
    (fails : bool) : Table * result Account :=
  if initialBalance <? 0 then (db, Err (Errorf "initial balance cannot be negative"))
  else match Postgres.CreateAccount db initialBalance uuid now fails with
       | (db', Err e) => (db', Err (Wrapf "failed to create account" e))
       | (db', Ok account) => (db', Ok account)
       end.

(** [AccountService.GetAccount] *)
Definition GetAccount (db : Table) (id : string) (fails : bool) : result Account :=
  match Postgres.GetAccount db id fails with
  | Err e => Err (Wrapf "failed to get account" e)
  | Ok account => Ok account
  end.

End AccountService.

(** ** internal/service: TransactionService *)

(** What one run of [CreateTransaction] meets: the two fresh uuids, the
    clock, the failing driver calls, and the documents that other submitters
    insert between this run's lookup by reference and its own insert. *)
Record SubmitEnv : Type := mkSubmitEnv {
  se_uuid_reference : string;
  se_uuid_id        : string;
  se_now            : Time;
  se_lookup_fails   : bool;
  se_concurrent     : list Transaction;
  se_insert_fails   : bool;
  se_publish_fails  : bool
}.

(** Inserts of other submitters, each through the same indexes. *)
Definition concurrent_inserts (c : Collection) (others : list Transaction) : Collection :=
  foldl (fun c d => fst (InsertOne c d false)) c others.

(** The reference after normalisation (first lines of [CreateTransaction]). *)
Definition normalized_reference (req : TransactionRequest) (env : SubmitEnv) : string :=
  if bool_decide (req_Reference req = EmptyString) then se_uuid_reference env
  else req_Reference req.

(** What one run of [ProcessTransaction] meets. *)
Record ProcessEnv : Type := mkProcessEnv {
  pe_get_fails    : bool;
  pe_now_balance  : Time;
  pe_tx_faults    : TxFaults;
  pe_now_status   : Time;
  pe_status_fails : bool
}.

(** The amount handed to the balance mutation: negated for a withdrawal,
    taken as it is for every other type. *)
Definition signed_amount (tx : Transaction) : Z :=
  if bool_decide (tx_Type tx = Withdrawal) then - tx_Amount tx else tx_Amount tx.

Module TransactionService.

(** [TransactionService.CreateTransaction] *)
Definition CreateTransaction (w : World) (req : TransactionRequest) (env : SubmitEnv)
    : World * result Transaction :=
  let reference := normalized_reference req env in
  match MongoDB.GetTransactionByReference (mongodb w) reference (se_lookup_fails env) with
  | Err e => (w, Err (Wrapf "Failed to check for existing transaction" e))
  | Ok (Some existingTx) => (w, Ok existingTx)
  | Ok None =>
      let tx := mkTransaction EmptyString (req_AccountID req) (req_Type req) (req_Amount req)
                  Pending reference 0 0 0 0 in
      let w := with_mongodb w (concurrent_inserts (mongodb w) (se_concurrent env)) in
      match MongoDB.CreateTransaction (mongodb w) tx (se_uuid_id env) (se_now env)
              (se_insert_fails env) with
      | (c, _, Some e) => (with_mongodb w c, Err (Wrapf "Failed to create transaction" e))
      | (c, tx, None) =>
          let w := with_mongodb w c in
          match RabbitMQ.PublishTransaction (rabbitmq w) tx (se_publish_fails env) with
          | (q, Some e) => (with_rabbitmq w q, Err (Wrapf "failed to queue transaction" e))
          | (q, None) => (with_rabbitmq w q, Ok tx)
          end
      end
  end.

(** [TransactionService.GetTransactionsByAccountID] *)
Definition GetTransactionsByAccountID (w : World) (accountID : string)
    (limit offset : Z) (fails : bool) : result (list Transaction) :=
  match MongoDB.GetTransactionsByAccountID (mongodb w) accountID limit offset fails with
  | Err e => Err (Wrapf "failed to get transactions" e)
  | Ok txs => Ok txs
  end.

(** [markTransactionFailed]: the failure of the status
    update is logged only; the error passed in is returned. *)
Definition markTransactionFailed (w : World) (id : string) (err : error) (now : Time)
    (fails : bool) : World * option error :=
  let '(c, _) := MongoDB.UpdateTransactionStatus (mongodb w) id Failed 0 0 now fails in
  (with_mongodb w c, Some err).

(** [TransactionService.ProcessTransaction] *)
Definition ProcessTransaction (w : World) (tx : Transaction) (env : ProcessEnv)
    : World * option error :=
  match Postgres.GetAccount (postgres w) (tx_AccountID tx) (pe_get_fails env) with
  | Err e =>
      markTransactionFailed w (tx_ID tx) (Wrapf "account not found" e)
        (pe_now_status env) (pe_status_fails env)
  | Ok _ =>
      let amount := signed_amount tx in
      match Postgres.UpdateAccountBalance (postgres w) (tx_AccountID tx) amount
              (pe_now_balance env) (pe_tx_faults env) with
      | (db, Err e) =>
          markTransactionFailed (with_postgres w db) (tx_ID tx)
            (Wrapf "failed to update balance" e) (pe_now_status env) (pe_status_fails env)
      | (db, Ok (balanceBefore, balanceAfter)) =>
          let w := with_postgres w db in
          match MongoDB.UpdateTransactionStatus (mongodb w) (tx_ID tx) Completed
                  balanceBefore balanceAfter (pe_now_status env) (pe_status_fails env) with
          | (c, Some e) =>
              (with_mongodb w c, Some (Wrapf "failed to update transaction status" e))
          | (c, None) => (with_mongodb w c, None)
          end
      end
  end.

(** [TransactionService.GetTransaction] *)
Definition GetTransaction (w : World) (id : string) (fails : bool) : result Transaction :=
  match MongoDB.GetTransactionByID (mongodb w) id fails with
  | Err e => Err (Wrapf "failed to get transaction" e)
  | Ok tx => Ok tx
  end.

End TransactionService.

(** ** strconv.Atoi *)

Definition digit_of (c : ascii) : option Z :=
  let n := Z.of_nat (nat_of_ascii c) in
  if (48 <=? n) && (n <=? 57) then Some (n - 48) else None.

Fixpoint parse_digits (cs : list ascii) (acc : Z) : option Z :=
  match cs with
  | [] => Some acc
  | c :: cs' =>
      match digit_of c with
      | Some d => parse_digits cs' (10 * acc + d)
      | None => None
      end
  end.

Definition maxInt : Z := 2 ^ 63 - 1.
Definition minInt : Z := - 2 ^ 63.

(** [strconv.Atoi] for the 64-bit [int]: an optional sign, then at least one
    decimal digit and nothing else; the value has to fit. *)
Definition Atoi (s : string) : result Z :=
  let cs := list_ascii_of_string s in
  let '(neg, ds) :=
    match cs with
    | "-"%char :: rest => (true, rest)
    | "+"%char :: rest => (false, rest)
    | _ => (false, cs)
    end in
  match ds with
  | [] => Err ErrSyntax
  | _ =>
      match parse_digits ds 0 with
      | None => Err ErrSyntax
      | Some n =>
          let v := if neg then - n else n in
          if (minInt <=? v) && (v <=? maxInt) then Ok v else Err ErrRange
      end
  end.

(** ** internal/api: handlers *)

Record TransactionResponse : Type := mkTransactionResponse {
  resp_ID            : string;
  resp_AccountID     : string;
  resp_Type          : TransactionType;
  resp_Amount        : Z;
  resp_Status        : TransactionStatus;
  resp_BalanceBefore : Z;
  resp_BalanceAfter  : Z;
  resp_CreatedAt     : Time
}.

(** The text of an error body: a literal of the handler or [err.Error()]. *)
Inductive ErrorBody : Type :=
| Message (m : string)
| ErrorOf (e : error).

Inductive Response : Type :=
| RespError (status : Z) (body : ErrorBody)
| RespTransaction (status : Z) (body : TransactionResponse)
| RespTransactions (status : Z) (body : list TransactionResponse).

Definition StatusOK : Z := 200.
Definition StatusCreated : Z := 201.
Definition StatusBadRequest : Z := 400.
Definition StatusNotFound : Z := 404.
Definition StatusInternalServerError : Z := 500.

(** The response built by [Handler.CreateTransaction]: no balances. *)
Definition created_response (tx : Transaction) : TransactionResponse :=
  mkTransactionResponse (tx_ID tx) (tx_AccountID tx) (tx_Type tx) (tx_Amount tx)
    (tx_Status tx) 0 0 (tx_CreatedAt tx).

(** The response built by [Handler.GetTransaction] and [GetTransactions]. *)
Definition full_response (tx : Transaction) : TransactionResponse :=
  mkTransactionResponse (tx_ID tx) (tx_AccountID tx) (tx_Type tx) (tx_Amount tx)
    (tx_Status tx) (tx_BalanceBefore tx) (tx_BalanceAfter tx) (tx_CreatedAt tx).

(** The [limit] query parameter as [Handler.GetTransactions] reads it. *)
Definition parse_limit (limitStr : string) : Z :=
  if bool_decide (limitStr = EmptyString) then 10
  else match Atoi limitStr with
       | Ok parsedLimit => if 0 <? parsedLimit then parsedLimit else 10
       | Err _ => 10
       end.

(** The [offset] query parameter as [Handler.GetTransactions] reads it. *)
Definition parse_offset (offsetStr : string) : Z :=
  if bool_decide (offsetStr = EmptyString) then 0
  else match Atoi offsetStr with
       | Ok parsedOffset => if 0 <=? parsedOffset then parsedOffset else 0
       | Err _ => 0
       end.

Record CreateAccountRequest : Type := mkCreateAccountRequest {
  req_InitialBalance : Z
}.

Record AccountResponse : Type := mkAccountResponse {
  aresp_ID        : string;
  aresp_Balance   : Z;
  aresp_CreatedAt : Time
}.

(** What the account handlers write: an error body or an account. *)
Inductive AccountReply : Type :=
| ReplyError (status : Z) (body : ErrorBody)
| ReplyAccount (status : Z) (body : AccountResponse).

Definition reply_status (r : AccountReply) : Z :=
  match r with
  | ReplyError status _ | ReplyAccount status _ => status
  end.

Definition response_status (r : Response) : Z :=
  match r with
  | RespError status _ | RespTransaction status _ | RespTransactions status _ => status
  end.

(** The response built by [Handler.CreateAccount] and [Handler.GetAccount]. *)
Definition account_response (a : Account) : AccountResponse :=
  mkAccountResponse (acc_ID a) (acc_Balance a) (acc_CreatedAt a).

Module Handler.

(** [Handler.CreateTransaction].  The body is [None] when the JSON decoder
    refuses it; a field absent from the JSON decodes to its zero value. *)
Definition CreateTransaction (w : World) (body : option TransactionRequest)
    (account_lookup_fails : bool) (env : SubmitEnv) : World * Response :=
  match body with
  | None => (w, RespError StatusBadRequest (Message "Invalid request payload"))
  | Some req =>
      match AccountService.GetAccount (postgres w) (req_AccountID req) account_lookup_fails with
      | Err _ => (w, RespError StatusNotFound (Message "Account not found"))
      | Ok _ =>
          match TransactionService.CreateTransaction w req env with
          | (w', Err e) => (w', RespError StatusInternalServerError (ErrorOf e))
          | (w', Ok tx) => (w', RespTransaction StatusCreated (created_response tx))
          end
      end
  end.

(** [Handler.GetTransactions]; an absent query parameter is the empty
    string. *)
Definition GetTransactions (w : World) (accountID limitStr offsetStr : string)
    (fails : bool) : Response :=
  let limit := parse_limit limitStr in
  let offset := parse_offset offsetStr in
  match TransactionService.GetTransactionsByAccountID w accountID limit offset fails with
  | Err e => RespError StatusInternalServerError (ErrorOf e)
  | Ok txs => RespTransactions StatusOK (full_response <$> txs)
  end.

(** [Handler.CreateAccount].  The body is [None] when the JSON decoder
    refuses it; an absent [initial_balance] decodes to 0. *)
Definition CreateAccount (db : Table) (body : option CreateAccountRequest) (uuid : string)
    (now : Time) (fails : bool) : Table * AccountReply :=
  match body with
  | None => (db, ReplyError StatusBadRequest (Message "invalid request payload"))
  | Some req =>
      match AccountService.CreateAccount db (req_InitialBalance req) uuid now fails with
      | (db', Err e) => (db', ReplyError StatusInternalServerError (ErrorOf e))
      | (db', Ok account) => (db', ReplyAccount StatusCreated (account_response account))
      end
  end.

(** [Handler.GetAccount] *)
Definition GetAccount (db : Table) (id : string) (fails : bool) : AccountReply :=
  match AccountService.GetAccount db id fails with
  | Err _ => ReplyError StatusNotFound (Message "Account not found")
  | Ok account => ReplyAccount StatusOK (account_response account)
  end.

(** [Handler.GetTransaction] *)
Definition GetTransaction (w : World) (id : string) (fails : bool) : Response :=
  match TransactionService.GetTransaction w id fails with
  | Err _ => RespError StatusNotFound (Message "Transaction not found")
  | Ok tx => RespTransaction StatusOK (full_response tx)
  end.

End Handler.

(** ** The consumer and the processor goroutines

    [RabbitMQ.ConsumeTransactions] starts the consumer goroutine, which reads
    deliveries from the broker's channel [msgs], and
    [TransactionService.StartProcessor] starts the processor goroutine, which
    reads transactions from [txChan].  [txChan] is unbuffered: a send and a
    receive on it happen together.  The two goroutines are interleaved by
    the scheduler; a schedule is a list of moves. *)

(** An [amqp.Delivery]. *)
Record Delivery : Type := mkDelivery {
  dlv_tag  : nat;
  dlv_body : Body
}.

(** What the consumer tells the broker about a delivery. *)
Inductive Acknowledgement : Type :=
| Ack (tag : nat) (multiple : bool)
| Reject (tag : nat) (requeue : bool).

(** Where the consumer goroutine stands. *)
Inductive ConsumerPC : Type :=
| CSelect                                  (* at the select over ctx.Done() and msgs *)
| CSend (d : Delivery) (tx : Transaction)  (* at txChan <- tx *)
| CAck (d : Delivery)                      (* at msg.Ack(false) *)
| CExit.                                   (* returned; txChan is closed *)

(** Where the processor goroutine stands.  The tag of the delivery a
    transaction came from travels with it for the statements below only;
    the Go channel carries the transaction alone. *)
Inductive ProcessorPC : Type :=
| PSelect                                  (* at the select over ctx.Done() and txChan *)
| PProcess (tag : nat) (tx : Transaction)  (* inside TransactionService.ProcessTransaction *)
| PExit.                                   (* returned *)

Record System : Type := mkSystem {
  sys_world     : World;
  sys_msgs      : list Delivery;           (* deliveries still to come on msgs *)
  sys_consumer  : ConsumerPC;
  sys_processor : ProcessorPC;
  sys_acks      : list Acknowledgement;    (* oldest first *)
  sys_finished  : list (nat * Transaction * option error)
                                           (* returns of TransactionService.ProcessTransaction, oldest first *)
}.

Inductive Move : Type :=
| ConsumerMove                       (* the consumer goroutine takes its next step *)
| ProcessorMove (env : ProcessEnv)   (* TransactionService.ProcessTransaction runs to its return *)
| ConsumerStops                      (* ctx.Done() or msgs closed, seen at the select *)
| ProcessorStops.                    (* ctx.Done() or txChan closed, seen at the select *)

(** One move of a schedule; [None] when the goroutine asked to move is
    blocked or has returned. *)
Definition step (s : System) (m : Move) : option System :=
  match m with
  | ConsumerMove =>
      match sys_consumer s with
      | CSelect =>
          match sys_msgs s with
          | [] => None
          | msg :: rest =>
              match json_Unmarshal (dlv_body msg) with
              | Err _ =>
                  Some (mkSystem (sys_world s) rest CSelect (sys_processor s)
                          (sys_acks s ++ [Reject (dlv_tag msg) false]) (sys_finished s))
              | Ok tx =>
                  Some (mkSystem (sys_world s) rest (CSend msg tx) (sys_processor s)
                          (sys_acks s) (sys_finished s))
              end
          end
      | CSend msg tx =>
          match sys_processor s with
          | PSelect =>
              Some (mkSystem (sys_world s) (sys_msgs s) (CAck msg) (PProcess (dlv_tag msg) tx)
                      (sys_acks s) (sys_finished s))
          | _ => None
          end
      | CAck msg =>
          Some (mkSystem (sys_world s) (sys_msgs s) CSelect (sys_processor s)
                  (sys_acks s ++ [Ack (dlv_tag msg) false]) (sys_finished s))
      | CExit => None
      end
  | ProcessorMove env =>
      match sys_processor s with
      | PProcess tag tx =>
          let '(w, err) := TransactionService.ProcessTransaction (sys_world s) tx env in
          Some (mkSystem w (sys_msgs s) (sys_consumer s) PSelect (sys_acks s)
                  (sys_finished s ++ [(tag, tx, err)]))
      | _ => None
      end
  | ConsumerStops =>
      match sys_consumer s with
      | CSelect =>
          Some (mkSystem (sys_world s) (sys_msgs s) CExit (sys_processor s)
                  (sys_acks s) (sys_finished s))
      | _ => None
      end
  | ProcessorStops =>
      match sys_processor s with
      | PSelect =>
          Some (mkSystem (sys_world s) (sys_msgs s) (sys_consumer s) PExit
                  (sys_acks s) (sys_finished s))
      | _ => None
      end
  end.

Fixpoint run (s : System) (schedule : list Move) : option System :=
  match schedule with
  | [] => Some s
  | m :: schedule' =>
      match step s m with
      | Some s' => run s' schedule'
      | None => None
      end
  end.

(** Both goroutines at their select, nothing acknowledged, nothing processed. *)
Definition start (w : World) (msgs : list Delivery) : System :=
  mkSystem w msgs CSelect PSelect [] [].

(** The consumer's answer to a delivery, read off the delivery alone. *)
Definition answer (d : Delivery) : Acknowledgement :=
  match json_Unmarshal (dlv_body d) with
  | Ok _ => Ack (dlv_tag d) false
  | Err _ => Reject (dlv_tag d) false
  end.

Definition decodes (d : Delivery) : bool := is_ok (json_Unmarshal (dlv_body d)).

(** The delivery taken from [msgs] and not yet answered. *)
Definition unanswered (pc : ConsumerPC) : list Delivery :=
  match pc with
  | CSend d _ | CAck d => [d]
  | CSelect | CExit => []
  end.

(** Tags of the deliveries handed over [txChan] and awaiting their ack. *)
Definition handed_unacked (pc : ConsumerPC) : list nat :=
  match pc with
  | CAck d => [dlv_tag d]
  | _ => []
  end.

(** Tag of the delivery being processed. *)
Definition in_process (pc : ProcessorPC) : list nat :=
  match pc with
  | PProcess tag _ => [tag]
  | _ => []
  end.

Definition finished_tag (r : nat * Transaction * option error) : nat := fst (fst r).

(** Tags of the deliveries handed over [txChan] so far, oldest first. *)
Definition handed_over (s : System) : list nat :=
  (finished_tag <$> sys_finished s) ++ in_process (sys_processor s).

(** How a state of the two goroutines relates to the deliveries [msgs] they
    were started on: some prefix [consumed] of them has been answered, each
    with its [answer]; the next one may be in the consumer's hands; and the
    deliveries handed over [txChan] are the decodable ones among [consumed],
    then the one awaiting its ack. *)
Definition consumer_invariant (msgs : list Delivery) (s : System) : Prop :=
  exists consumed : list Delivery,
    msgs = consumed ++ unanswered (sys_consumer s) ++ sys_msgs s
    /\ sys_acks s = answer <$> consumed
    /\ (dlv_tag <$> List.filter decodes consumed) ++ handed_unacked (sys_consumer s)
       = handed_over s
    /\ Forall (fun d => decodes d = true) (unanswered (sys_consumer s)).

(** ** Sequences of balance-store operations *)

Inductive Op : Type :=
| OpCreateAccount (initialBalance : Z) (uuid : string) (now : Time) (fails : bool)
| OpApplyDelta (id : string) (amount : Z) (now : Time) (f : TxFaults).

Definition apply_op (db : Table) (op : Op) : Table :=
  match op with
  | OpCreateAccount initialBalance uuid now fails =>
      fst (AccountService.CreateAccount db initialBalance uuid now fails)
  | OpApplyDelta id amount now f =>
      fst (Postgres.UpdateAccountBalance db id amount now f)
  end.

Definition run_ops (db : Table) (ops : list Op) : Table := foldl apply_op db ops.

(** Every row of the table has a balance that is not negative. *)
Definition balances_nonnegative (db : Table) : Prop :=
  forall id a, db !! id = Some a -> 0 <= acc_Balance a.

(** ** Sequences of service operations *)

Inductive SvcOp : Type :=
| OpOpen (initialBalance : Z) (uuid : string) (now : Time) (fails : bool)
| OpSubmit (req : TransactionRequest) (env : SubmitEnv)
| OpProcess (tx : Transaction) (env : ProcessEnv).

Definition apply_svc (w : World) (op : SvcOp) : World :=
  match op with
  | OpOpen initialBalance uuid now fails =>
      with_postgres w (fst (AccountService.CreateAccount (postgres w) initialBalance uuid now fails))
  | OpSubmit req env => fst (TransactionService.CreateTransaction w req env)
  | OpProcess tx env => fst (TransactionService.ProcessTransaction w tx env)
  end.

Definition run_svc (w : World) (ops : list SvcOp) : World := foldl apply_svc w ops.

(** No two documents of the collection share an id, and no two share a
    reference. *)
Definition unique_keys (c : Collection) : Prop :=
  NoDup (tx_ID <$> c) /\ NoDup (tx_Reference <$> c).

(** A terminal status. *)
Definition terminal (status : TransactionStatus) : Prop :=
  status = Completed \/ status = Failed.

(** The fields of a transaction written at intent time agree. *)
Definition same_intent (d d' : Transaction) : Prop :=
  tx_ID d' = tx_ID d /\ tx_AccountID d' = tx_AccountID d /\ tx_Type d' = tx_Type d
  /\ tx_Amount d' = tx_Amount d /\ tx_Reference d' = tx_Reference d
  /\ tx_CreatedAt d' = tx_CreatedAt d.

(** A message and a logged document are of one submission: they agree on
    id, account, type, amount and reference. *)
Definition same_submission (m d : Transaction) : Prop :=
  tx_ID d = tx_ID m /\ tx_AccountID d = tx_AccountID m /\ tx_Type d = tx_Type m
  /\ tx_Amount d = tx_Amount m /\ tx_Reference d = tx_Reference m.

(** Every message on the queue decodes to a transaction that the log holds
    under the same id, as the same submission. *)
Definition queue_agrees_with_log (w : World) : Prop :=
  forall body, body ∈ rabbitmq w ->
    exists tx d,
      body = JSON tx
      /\ FindOne (has_ID (tx_ID tx)) (mongodb w) = Some d
      /\ same_submission tx d.

(** A listing of an account: its documents, newest first, whatever the order
    among documents with equal created_at. *)
Definition is_listing (c : Collection) (accountID : string) (l : list Transaction) : Prop :=
  l ≡ₚ List.filter (has_AccountID accountID) c /\ StronglySorted newer_or_same l.

(** ** The balance mutation and the processor in float64 arithmetic *)

Module F64.

(** Go's [float64]: IEEE 754 binary64, the kernel's primitive floats. *)
Abbreviation float64 := PrimFloat.float.

(** The [float64] nearest to the fraction [n / d], ties to even: what
    [strconv.ParseFloat] returns for a decimal text.  [encoding/json] decodes
    a number with it and [database/sql] scans a numeric column with it. *)
Definition nearest_float (n : Z) (d : positive) : float64 :=
  FloatOps.SF2Prim
    match n with
    | Z0 => SpecFloat.S754_zero false
    | Zpos m =>
        SpecFloat.SFdiv FloatOps.prec FloatOps.emax
          (SpecFloat.S754_finite false m 0) (SpecFloat.S754_finite false d 0)
    | Zneg m =>
        SpecFloat.SFdiv FloatOps.prec FloatOps.emax
          (SpecFloat.S754_finite true m 0) (SpecFloat.S754_finite false d 0)
    end.

(** The [float64] scanned from a [DECIMAL(20,2)] value of [c] hundredths. *)
Definition hundredths (c : Z) : float64 := nearest_float c 100.

(** What the [DECIMAL(20,2)] column makes of a [float64] parameter is the
    work of the driver and of the database, not of this repository: lib/pq
    renders the float in decimal and PostgreSQL rounds that to two places,
    or refuses it.  The functions below take it as the argument [column]:
    the hundredths stored, or the error of the statement. *)
Definition Column := float64 -> result Z.

(** One column, to run the model on concrete inputs: the exact value of the
    float rounded to hundredths, halves away from zero, refused when the
    float is not finite or does not fit twenty digits. *)
Definition exact_hundredths : Column := fun x =>
  match FloatOps.Prim2SF x with
  | SpecFloat.S754_zero _ => Ok 0
  | SpecFloat.S754_finite sign m e =>
      let scaled := 100 * Zpos m in
      let magnitude :=
        match e with
        | Zneg p => (2 * scaled + 2 ^ Zpos p) / 2 ^ (Zpos p + 1)
        | _ => scaled * 2 ^ e
        end in
      if magnitude <? 10 ^ 20
      then Ok (if sign then - magnitude else magnitude)
      else Err ErrDriver
  | _ => Err ErrDriver
  end.

(** [models.Transaction] with its [float64] fields. *)
Record Transaction : Type := mkTransaction {
  tx_ID            : string;
  tx_AccountID     : string;
  tx_Type          : TransactionType;
  tx_Amount        : float64;
  tx_Status        : TransactionStatus;
  tx_Reference     : string;
  tx_BalanceBefore : float64;
  tx_BalanceAfter  : float64;
  tx_CreatedAt     : Time;
  tx_UpdatedAt     : Time
}.

(** The document after
    [$set: {status, balance_before, balance_after, updated_at}]. *)
Definition set_status (status : TransactionStatus) (balanceBefore balanceAfter : float64)
    (now : Time) (t : Transaction) : Transaction :=
  mkTransaction (tx_ID t) (tx_AccountID t) (tx_Type t) (tx_Amount t) status
    (tx_Reference t) balanceBefore balanceAfter (tx_CreatedAt t) now.

Definition has_ID (id : string) (d : Transaction) : bool := bool_decide (tx_ID d = id).

Definition FindOne (p : Transaction -> bool) (c : list Transaction) : option Transaction :=
  List.find p c.

Fixpoint UpdateOne (p : Transaction -> bool) (f : Transaction -> Transaction)
    (c : list Transaction) : list Transaction :=
  match c with
  | [] => []
  | d :: c' => if p d then f d :: c' else d :: UpdateOne p f c'
  end.

(** The accounts table and the transaction log. *)
Record World : Type := mkWorld {
  postgres : Table;
  mongodb  : list Transaction
}.

(** [Postgres.UpdateAccountBalance].  [Scan] reads the row's balance into a
    [float64]; the sum and the test against zero are [float64] operations;
    the [UPDATE] hands the sum to the column. *)
Definition UpdateAccountBalance (column : Column) (db : Table) (id : string)
    (amount : float64) (now : Time) (f : TxFaults) : Table * result (float64 * float64) :=
  if begin_fails f then (db, Err (Wrapf "failed to begin transaction" ErrDriver))
  else
    let tx := BeginTx db in
    match query_balance_for_update tx id (select_fails f) with
    | Err e => (Rollback tx, Err (Wrapf "Failed to get current balance" e))
    | Ok stored =>
        let currentBalance := hundredths stored in
        let newBalance := PrimFloat.add currentBalance amount in
        if PrimFloat.ltb newBalance PrimFloat.zero
        then (Rollback tx, Err (Errorf "insufficient funds"))
        else if exec_fails f
        then (Rollback tx, Err (Wrapf "failed to update balance" ErrDriver))
        else
          match column newBalance with
          | Err e => (Rollback tx, Err (Wrapf "failed to update balance" e))
          | Ok cents =>
              let tx := exec_update_balance tx cents now id in
              if commit_fails f
              then (Rollback tx, Err (Wrapf "failed to commit transaction" ErrDriver))
              else (Commit tx, Ok (currentBalance, newBalance))
          end
    end.

(** [MongoDB.UpdateTransactionStatus] *)
Definition UpdateTransactionStatus (c : list Transaction) (id : string)
    (status : TransactionStatus) (balanceBefore balanceAfter : float64) (now : Time)
    (fails : bool) : list Transaction * option error :=
  if fails then (c, Some (Wrapf "failed to update transaction" ErrDriver))
  else (UpdateOne (has_ID id) (set_status status balanceBefore balanceAfter now) c, None).

(** [TransactionService.markTransactionFailed] *)
Definition markTransactionFailed (w : World) (id : string) (err : error) (now : Time)
    (fails : bool) : World * option error :=
  let '(c, _) :=
    UpdateTransactionStatus (mongodb w) id Failed PrimFloat.zero PrimFloat.zero now fails in
  (mkWorld (postgres w) c, Some err).

(** The amount handed to the balance mutation. *)
Definition signed_amount (tx : Transaction) : float64 :=
  if bool_decide (tx_Type tx = Withdrawal) then PrimFloat.opp (tx_Amount tx)
  else tx_Amount tx.

(** [TransactionService.ProcessTransaction] *)
Definition ProcessTransaction (column : Column) (w : World) (tx : Transaction)
    (env : ProcessEnv) : World * option error :=
  match Postgres.GetAccount (postgres w) (tx_AccountID tx) (pe_get_fails env) with
  | Err e =>
      markTransactionFailed w (tx_ID tx) (Wrapf "account not found" e)
        (pe_now_status env) (pe_status_fails env)
  | Ok _ =>
      let amount := signed_amount tx in
      match UpdateAccountBalance column (postgres w) (tx_AccountID tx) amount
              (pe_now_balance env) (pe_tx_faults env) with
      | (db, Err e) =>
          markTransactionFailed (mkWorld db (mongodb w)) (tx_ID tx)
            (Wrapf "failed to update balance" e) (pe_now_status env) (pe_status_fails env)
      | (db, Ok (balanceBefore, balanceAfter)) =>
          match UpdateTransactionStatus (mongodb w) (tx_ID tx) Completed
                  balanceBefore balanceAfter (pe_now_status env) (pe_status_fails env) with
          | (c, Some e) =>
              (mkWorld db c, Some (Wrapf "failed to update transaction status" e))
          | (c, None) => (mkWorld db c, None)
          end
      end
  end.

End F64.

(** ** Sample data

    One account holding 100.00, and the documents, requests and runs used
    to exercise the statements below on concrete inputs. *)

Definition sample_account : Account := mkAccount "acc-1" 10000 5 5.
Definition sample_table : Table := {[ "acc-1" := sample_account ]}.


Definition no_process_faults (now_balance now_status : Time) : ProcessEnv :=
  mkProcessEnv false now_balance no_tx_faults now_status false.

(** A deposit of 50.00 with reference r-1, as logged at intent time. *)
Definition pending_deposit : Transaction :=
  mkTransaction "tx-1" "acc-1" Deposit 5000 Pending "r-1" 0 0 7 7.

(** The same deposit after it was settled on a balance of 50.00. *)
Definition completed_deposit : Transaction :=
  mkTransaction "tx-1" "acc-1" Deposit 5000 Completed "r-1" 5000 10000 7 8.

(** A withdrawal of 30.00 with reference r-2, as logged at intent time. *)
Definition pending_withdrawal : Transaction :=
  mkTransaction "tx-2" "acc-1" Withdrawal 3000 Pending "r-2" 0 0 9 9.

Definition deposit_request : TransactionRequest :=
  mkTransactionRequest "acc-1" Deposit 5000 "r-1".

Definition quiet_submit : SubmitEnv :=
  mkSubmitEnv "ref-uuid" "tx-9" 20 false [] false false.

(** A run in which another submitter inserts reference r-1 between this
    run's lookup and its insert. *)
Definition racing_submit : SubmitEnv :=
  mkSubmitEnv "ref-uuid" "tx-9" 20 false [pending_deposit] false false.

(** A deposit request with a negative amount. *)
Definition negative_request : TransactionRequest :=
  mkTransactionRequest "acc-1" Deposit (-500) "r-9".

(** A run in which the commit of the balance mutation fails. *)
Definition commit_failure : ProcessEnv :=
  mkProcessEnv false 30 (mkTxFaults false false false true) 31 false.

Definition fresh_world : World := mkWorld sample_table [] [].
Definition pending_world : World := mkWorld sample_table [pending_deposit] [JSON pending_deposit].
Definition settled_world : World := mkWorld sample_table [completed_deposit] [].

(** The account's history: the settled deposit, then a pending withdrawal. *)
Definition history_world : World :=
  mkWorld sample_table [completed_deposit; pending_withdrawal] [JSON pending_withdrawal].

(** One delivery, tag 1, carrying the pending deposit. *)
Definition one_delivery : list Delivery := [mkDelivery 1 (JSON pending_deposit)].

(** The consumer takes the delivery and hands it over; the processor then
    runs [ProcessTransaction] to its return before the consumer moves on. *)
Definition processor_first : list Move :=
  [ConsumerMove; ConsumerMove; ProcessorMove (no_process_faults 30 31)].

(** The state that schedule leads to: tx-1 is settled, its delivery is not
    acknowledged yet. *)
Definition after_processor_first : System :=
  mkSystem
    (mkWorld (<[ "acc-1" := mkAccount "acc-1" 15000 5 30 ]> sample_table)
       [set_status Completed 10000 15000 31 pending_deposit]
       [JSON pending_deposit])
    [] (CAck (mkDelivery 1 (JSON pending_deposit))) PSelect []
    [(1%nat, pending_deposit, None)].

(** Creations and mutations on two accounts, some refused, some failing. *)
Definition mixed_ops : list Op :=
  [ OpApplyDelta "acc-1" (-4000) 11 no_tx_faults;
    OpCreateAccount 700 "acc-2" 12 false;
    OpCreateAccount 50 "acc-1" 13 false;
    OpApplyDelta "acc-1" (-7000) 14 no_tx_faults;
    OpApplyDelta "acc-2" 300 15 no_tx_faults;
    OpApplyDelta "acc-1" 2500 16 (mkTxFaults false false false true);
    OpApplyDelta "acc-1" 1500 17 no_tx_faults ].

(** Submissions and processings, among them a replay of reference r-1, a
    submission whose publish fails, and a processing whose commit fails. *)
Definition sample_svc_ops : list SvcOp :=
  [ OpSubmit deposit_request quiet_submit;
    OpSubmit deposit_request racing_submit;
    OpOpen 500 "acc-4" 21 false;
    OpSubmit (mkTransactionRequest "acc-1" Withdrawal 3000 "r-2")
      (mkSubmitEnv "ref-uuid" "tx-2" 22 false [] false true);
    OpProcess pending_deposit commit_failure;
    OpProcess pending_withdrawal (no_process_faults 40 41) ].

(** A run in which the publish fails. *)
Definition publish_failure : SubmitEnv :=
  mkSubmitEnv "ref-uuid" "tx-9" 20 false [] false true.

(** The deposit of [deposit_request] as [quiet_submit] logs it. *)
Definition logged_deposit : Transaction :=
  mkTransaction "tx-9" "acc-1" Deposit 5000 Pending "r-1" 0 0 20 20.


(** A run in which the status update fails after the balance is committed. *)
Definition status_failure : ProcessEnv :=
  mkProcessEnv false 30 no_tx_faults 31 true.

(** A log that holds the pending withdrawal only. *)
Definition history_world_2 : World :=
  mkWorld sample_table [pending_withdrawal] [JSON pending_withdrawal].

(** The consumer holds delivery 1 at its send and the processor has
    returned. *)
Definition stuck_system : System :=
  mkSystem pending_world [] (CSend (mkDelivery 1 (JSON pending_deposit)) pending_deposit)
    PExit [] [].

(** An account holding 1000000.00 and one holding 100.00. *)
Definition million_table : Table :=
  {[ "acc-6" := mkAccount "acc-6" 100000000 5 5; "acc-1" := sample_account ]}.

(** A withdrawal of 999999.99 from the first, pending in the log. *)
Definition large_withdrawal : F64.Transaction :=
  F64.mkTransaction "tx-6" "acc-6" Withdrawal (F64.hundredths 99999999) Pending "r-6"
    PrimFloat.zero PrimFloat.zero 7 7.

Definition million_world : F64.World := F64.mkWorld million_table [large_withdrawal].

(** * Properties *)

(** ** The balance mutation *)

Lemma alter_present (f : Account -> Account) (db : Table) id a :
  db !! id = Some a -> alter f id db = <[id := f a]> db.
Proof.
  intros Hid. apply map_eq. intros j.
  destruct (decide (id = j)) as [->|Hne].
  - rewrite lookup_alter_eq, lookup_insert_eq, Hid. reflexivity.
  - rewrite lookup_alter_ne, lookup_insert_ne by assumption. reflexivity.
Qed.

(** An error from the balance mutation leaves the table as it was. *)
Lemma UpdateAccountBalance_error_keeps_table (db : Table) id d now f e :
  snd (Postgres.UpdateAccountBalance db id d now f) = Err e ->
  fst (Postgres.UpdateAccountBalance db id d now f) = db.
Proof.
  unfold Postgres.UpdateAccountBalance.
  destruct (begin_fails f); [reflexivity|].
  destruct (query_balance_for_update _ _ _); [|reflexivity].
  cbn zeta. destruct (_ <? 0); [reflexivity|].
  destruct (exec_fails f); [reflexivity|].
  destruct (commit_fails f); [reflexivity|].
  discriminate.
Qed.

(** A successful balance mutation returns the balance read and that balance
    plus the amount, the latter not negative, and writes it to the row. *)
Lemma UpdateAccountBalance_ok (db db' : Table) id d now f before after :
  Postgres.UpdateAccountBalance db id d now f = (db', Ok (before, after)) ->
  exists a,
    db !! id = Some a /\ before = acc_Balance a /\ after = before + d /\ 0 <= after /\
    db' = <[id := mkAccount (acc_ID a) after (acc_CreatedAt a) now]> db.
Proof.
  unfold Postgres.UpdateAccountBalance.
  destruct (begin_fails f); [discriminate|].
  unfold query_balance_for_update, BeginTx. cbn [sql_work].
  destruct (select_fails f); [discriminate|].
  destruct (db !! id) as [a|] eqn:Hid; [|discriminate].
  cbn zeta. destruct (Z.ltb_spec (acc_Balance a + d) 0) as [Hneg|Hpos]; [discriminate|].
  destruct (exec_fails f); [discriminate|].
  destruct (commit_fails f); [discriminate|].
  unfold Commit, exec_update_balance. cbn [sql_work].
  intros [= <- <- <-]. exists a. repeat split; try assumption.
  rewrite (alter_present _ _ _ _ Hid). reflexivity.
Qed.

(** The commit path of the balance mutation. *)
Lemma UpdateAccountBalance_commits (db : Table) id a d now :
  db !! id = Some a ->
  0 <= acc_Balance a + d ->
  Postgres.UpdateAccountBalance db id d now no_tx_faults =
    (<[id := mkAccount (acc_ID a) (acc_Balance a + d) (acc_CreatedAt a) now]> db,
     Ok (acc_Balance a, acc_Balance a + d)).
Proof.
  intros Hid Hpos.
  unfold Postgres.UpdateAccountBalance, query_balance_for_update, BeginTx.
  cbn [begin_fails select_fails exec_fails commit_fails no_tx_faults sql_work].
  rewrite Hid. cbn zeta.
  destruct (Z.ltb_spec (acc_Balance a + d) 0) as [Hneg|_]; [lia|].
  unfold Commit, exec_update_balance. cbn [sql_work].
  rewrite (alter_present _ _ _ _ Hid). reflexivity.
Qed.

(** C1, as the code has it.  For an account present in the table, when the
    scope opens and the locked read succeeds, let [b] be the [float64] read
    from the row and [b + d] the [float64] sum.  If the sum is not below
    zero, the column takes it and neither the update nor the commit fails,
    [UpdateAccountBalance] returns the pair [(b, b + d)] and the row holds
    what the column made of the sum, with the new stamp.  If the sum is
    below zero it fails with the insufficient-funds error and the table (so
    the row's balance and updated_at) is what it was. *)
Theorem apply_delta_float64 :
  forall (column : F64.Column) (db : Table) (id : string) (a : Account)
         (d : F64.float64) (now : Time) (f : TxFaults),
    db !! id = Some a ->
    begin_fails f = false ->
    select_fails f = false ->
    (PrimFloat.ltb (PrimFloat.add (F64.hundredths (acc_Balance a)) d) PrimFloat.zero = false ->
     forall cents,
       column (PrimFloat.add (F64.hundredths (acc_Balance a)) d) = Ok cents ->
       exec_fails f = false -> commit_fails f = false ->
       F64.UpdateAccountBalance column db id d now f =
         (<[id := mkAccount (acc_ID a) cents (acc_CreatedAt a) now]> db,
          Ok (F64.hundredths (acc_Balance a),
              PrimFloat.add (F64.hundredths (acc_Balance a)) d)))
    /\ (PrimFloat.ltb (PrimFloat.add (F64.hundredths (acc_Balance a)) d) PrimFloat.zero = true ->
        F64.UpdateAccountBalance column db id d now f = (db, Err InsufficientFunds)).
Proof.
  intros column db id a d now f Hid Hbegin Hselect.
  unfold F64.UpdateAccountBalance, query_balance_for_update, BeginTx.
  rewrite Hbegin, Hselect. cbn [sql_work]. rewrite Hid. cbn zeta.
  split.
  - intros Hsign cents Hcolumn Hexec Hcommit.
    rewrite Hsign, Hexec, Hcolumn, Hcommit. unfold Commit, exec_update_balance.
    cbn [sql_work]. rewrite (alter_present _ _ _ _ Hid). reflexivity.
  - intros Hsign. rewrite Hsign. reflexivity.
Qed.

Lemma apply_delta_float64_witness :
  F64.UpdateAccountBalance F64.exact_hundredths sample_table "acc-1"
    (PrimFloat.opp (F64.hundredths 3000)) 9 no_tx_faults =
    (<[ "acc-1" := mkAccount "acc-1" 7000 5 9 ]> sample_table,
     Ok (F64.hundredths 10000,
         PrimFloat.add (F64.hundredths 10000) (PrimFloat.opp (F64.hundredths 3000))))
  /\ F64.UpdateAccountBalance F64.exact_hundredths sample_table "acc-1"
       (PrimFloat.opp (F64.hundredths 10001)) 9 no_tx_faults =
       (sample_table, Err InsufficientFunds).
Proof.
  split.
  - apply (apply_delta_float64 F64.exact_hundredths sample_table "acc-1" sample_account
             (PrimFloat.opp (F64.hundredths 3000)) 9 no_tx_faults);
      try reflexivity.
  - apply (apply_delta_float64 F64.exact_hundredths sample_table "acc-1" sample_account
             (PrimFloat.opp (F64.hundredths 10001)) 9 no_tx_faults);
      try reflexivity.
Defined.

(** C1, as the specification has it, fails.  From a balance of 1000000.00 a
    delta of -999999.99 returns, as the new balance, a [float64] that is not
    0.01 but lies above it, while the row holds 0.01.  With a balance of
    100.00 a delta of 0.004 returns 100.004 and leaves the row at 100.00.
    So the pair returned is not [(b, b + d)] in decimals, and what is
    committed is not the sum returned. *)
Lemma float_sum_is_not_decimal_sum :
  F64.UpdateAccountBalance F64.exact_hundredths million_table "acc-6"
    (PrimFloat.opp (F64.hundredths 99999999)) 9 no_tx_faults =
    (<[ "acc-6" := mkAccount "acc-6" 1 5 9 ]> million_table,
     Ok (F64.hundredths 100000000,
         PrimFloat.add (F64.hundredths 100000000) (PrimFloat.opp (F64.hundredths 99999999))))
  /\ PrimFloat.eqb
       (PrimFloat.add (F64.hundredths 100000000) (PrimFloat.opp (F64.hundredths 99999999)))
       (F64.hundredths 1) = false
  /\ PrimFloat.ltb (F64.hundredths 1)
       (PrimFloat.add (F64.hundredths 100000000) (PrimFloat.opp (F64.hundredths 99999999)))
     = true
  /\ F64.UpdateAccountBalance F64.exact_hundredths million_table "acc-1"
       (F64.nearest_float 4 1000) 9 no_tx_faults =
       (<[ "acc-1" := mkAccount "acc-1" 10000 5 9 ]> million_table,
        Ok (F64.hundredths 10000,
            PrimFloat.add (F64.hundredths 10000) (F64.nearest_float 4 1000)))
  /\ PrimFloat.eqb (PrimFloat.add (F64.hundredths 10000) (F64.nearest_float 4 1000))
       (F64.hundredths 10000) = false.
Proof.
  repeat split; vm_compute; reflexivity.
Qed.

(** ** No overdraft *)


Lemma insert_nonnegative (db : Table) id a :
  balances_nonnegative db -> 0 <= acc_Balance a ->
  balances_nonnegative (<[id := a]> db).
Proof.
  intros Hdb Ha j b. destruct (decide (id = j)) as [->|Hne].
  - rewrite lookup_insert_eq. intros [= <-]. exact Ha.
  - rewrite lookup_insert_ne by assumption. apply Hdb.
Qed.

Lemma CreateAccount_nonnegative (db : Table) initialBalance uuid now fails :
  balances_nonnegative db ->
  balances_nonnegative (fst (AccountService.CreateAccount db initialBalance uuid now fails)).
Proof.
  intros Hdb. unfold AccountService.CreateAccount.
  destruct (Z.ltb_spec initialBalance 0) as [Hneg|Hpos]; [exact Hdb|].
  unfold Postgres.CreateAccount. destruct fails; [exact Hdb|].
  destruct (db !! uuid); [exact Hdb|].
  cbn [fst]. apply insert_nonnegative; [exact Hdb|exact Hpos].
Qed.

Lemma UpdateAccountBalance_nonnegative (db : Table) id d now f :
  balances_nonnegative db ->
  balances_nonnegative (fst (Postgres.UpdateAccountBalance db id d now f)).
Proof.
  intros Hdb.
  destruct (Postgres.UpdateAccountBalance db id d now f) as [db' [[before after]|e]] eqn:Hrun.
  - apply UpdateAccountBalance_ok in Hrun as (a & _ & _ & _ & Hafter & ->).
    cbn [fst]. apply insert_nonnegative; assumption.
  - pose proof (UpdateAccountBalance_error_keeps_table db id d now f e) as Hkeep.
    rewrite Hrun in Hkeep. cbn [fst snd] in *. rewrite Hkeep by reflexivity. exact Hdb.
Qed.






(** ** Submitting a transaction *)

(** C2.  When the log already holds a transaction under the normalised
    reference of a request, [CreateTransaction] changes nothing in the three
    stores (no insert, no publish) and, when the lookup itself does not fail,
    returns exactly that logged transaction. *)
Theorem submit_replays_existing :
  forall (w : World) (req : TransactionRequest) (env : SubmitEnv) (existing : Transaction),
    FindOne (has_Reference (normalized_reference req env)) (mongodb w) = Some existing ->
    fst (TransactionService.CreateTransaction w req env) = w
    /\ (se_lookup_fails env = false -> TransactionService.CreateTransaction w req env = (w, Ok existing)).
Proof.
  intros w req env existing Hfound. unfold TransactionService.CreateTransaction, MongoDB.GetTransactionByReference.
  destruct (se_lookup_fails env).
  - split; [reflexivity|discriminate].
  - rewrite Hfound. split; reflexivity.
Qed.

Lemma submit_replays_existing_witness :
  fst (TransactionService.CreateTransaction settled_world deposit_request quiet_submit) = settled_world
  /\ TransactionService.CreateTransaction settled_world deposit_request quiet_submit =
       (settled_world, Ok completed_deposit).
Proof.
  destruct (submit_replays_existing settled_world deposit_request quiet_submit
              completed_deposit) as [Hsame Hret]; [reflexivity|].
  split; [exact Hsame|apply Hret; reflexivity].
Defined.

Lemma FindOne_Some_existsb (p q : Transaction -> bool) (c : Collection) x :
  FindOne p c = Some x -> existsb (fun d => q d || p d) c = true.
Proof.
  unfold FindOne. induction c as [|d c IH]; cbn [find existsb]; [discriminate|].
  destruct (p d) eqn:Hp.
  - intros _. rewrite orb_true_r. reflexivity.
  - intros Hfind. rewrite (IH Hfind). apply orb_true_r.
Qed.

(** C7, as the code has it.  When the lookup by reference finds nothing and
    another submitter's document with the same reference is in the log by
    the time of the insert, [CreateTransaction] returns the wrapped insert
    error (the duplicate-key error of the unique index unless the driver call
    itself fails); it does not read the log again, it inserts nothing of its
    own and it publishes nothing. *)
Theorem submit_duplicate_reference_is_an_error :
  forall (w : World) (req : TransactionRequest) (env : SubmitEnv) (winner : Transaction),
    se_lookup_fails env = false ->
    FindOne (has_Reference (normalized_reference req env)) (mongodb w) = None ->
    FindOne (has_Reference (normalized_reference req env))
      (concurrent_inserts (mongodb w) (se_concurrent env)) = Some winner ->
    TransactionService.CreateTransaction w req env =
      (with_mongodb w (concurrent_inserts (mongodb w) (se_concurrent env)),
       Err (Wrapf "Failed to create transaction"
              (Wrapf "failed to insert transaction"
                 (if se_insert_fails env then ErrDriver else ErrDuplicateKey)))).
Proof.
  intros w req env winner Hlookup Hnone Hwinner.
  unfold TransactionService.CreateTransaction, MongoDB.GetTransactionByReference.
  rewrite Hlookup, Hnone. cbn zeta.
  unfold MongoDB.CreateTransaction, InsertOne. cbn [mongodb with_mongodb].
  destruct (se_insert_fails env); [reflexivity|].
  match goal with |- context [existsb ?f ?c] =>
    assert (existsb f c = true) as ->
  end.
  { apply (FindOne_Some_existsb _ _ _ winner). exact Hwinner. }
  reflexivity.
Qed.

Lemma submit_duplicate_reference_is_an_error_witness :
  TransactionService.CreateTransaction fresh_world deposit_request racing_submit =
    (with_mongodb fresh_world [pending_deposit],
     Err (Wrapf "Failed to create transaction"
            (Wrapf "failed to insert transaction" ErrDuplicateKey))).
Proof.
  apply (submit_duplicate_reference_is_an_error fresh_world deposit_request racing_submit
           pending_deposit); reflexivity.
Defined.

(** C7, as the specification has it, fails: the submitter that loses the
    race on reference r-1 gets the insert error back, not the winner's
    record, which is in the log. *)
Lemma submit_race_returns_error :
  FindOne (has_Reference "r-1")
    (mongodb (fst (TransactionService.CreateTransaction fresh_world deposit_request racing_submit)))
    = Some pending_deposit
  /\ snd (TransactionService.CreateTransaction fresh_world deposit_request racing_submit) <> Ok pending_deposit
  /\ snd (TransactionService.CreateTransaction fresh_world deposit_request racing_submit) =
       Err (Wrapf "Failed to create transaction"
              (Wrapf "failed to insert transaction" ErrDuplicateKey)).
Proof.
  split; [reflexivity|]. split; [discriminate|reflexivity].
Qed.

(** C8, evaluated on a deposit request with amount -5.00 for an existing
    account.  The handler answers 201, the log gains a pending transaction
    with the negative amount, and the message is on the queue; processing it
    then lowers the balance from 100.00 to 95.00 and records the transaction
    as completed. *)
Theorem negative_amount_is_accepted :
  Handler.CreateTransaction fresh_world (Some negative_request) false quiet_submit =
    (mkWorld sample_table
       [mkTransaction "tx-9" "acc-1" Deposit (-500) Pending "r-9" 0 0 20 20]
       [JSON (mkTransaction "tx-9" "acc-1" Deposit (-500) Pending "r-9" 0 0 20 20)],
     RespTransaction StatusCreated
       (mkTransactionResponse "tx-9" "acc-1" Deposit (-500) Pending 0 0 20))
  /\ TransactionService.ProcessTransaction
       (fst (Handler.CreateTransaction fresh_world (Some negative_request) false quiet_submit))
       (mkTransaction "tx-9" "acc-1" Deposit (-500) Pending "r-9" 0 0 20 20)
       (no_process_faults 30 31) =
     (mkWorld (<[ "acc-1" := mkAccount "acc-1" 9500 5 30 ]> sample_table)
        [mkTransaction "tx-9" "acc-1" Deposit (-500) Completed "r-9" 10000 9500 20 31]
        [JSON (mkTransaction "tx-9" "acc-1" Deposit (-500) Pending "r-9" 0 0 20 20)],
      None).
Proof.
  split; vm_compute; reflexivity.
Qed.

(** ** Processing a transaction *)

Lemma FindOne_UpdateOne (id : string) (f : Transaction -> Transaction) (c : Collection) :
  (forall d, tx_ID (f d) = tx_ID d) ->
  FindOne (has_ID id) (UpdateOne (has_ID id) f c) = f <$> FindOne (has_ID id) c.
Proof.
  intros Hid. unfold FindOne.
  induction c as [|d c IH]; cbn [UpdateOne find]; [reflexivity|].
  destruct (has_ID id d) eqn:Hd.
  - cbn [find]. unfold has_ID in *. rewrite Hid, Hd. reflexivity.
  - cbn [find]. rewrite Hd. exact IH.
Qed.

Lemma set_status_ID status before after now d :
  tx_ID (set_status status before after now d) = tx_ID d.
Proof. reflexivity. Qed.

Lemma F64_FindOne_UpdateOne (id : string) (f : F64.Transaction -> F64.Transaction)
    (c : list F64.Transaction) :
  (forall d, F64.tx_ID (f d) = F64.tx_ID d) ->
  F64.FindOne (F64.has_ID id) (F64.UpdateOne (F64.has_ID id) f c)
    = f <$> F64.FindOne (F64.has_ID id) c.
Proof.
  intros Hid. unfold F64.FindOne.
  induction c as [|d c IH]; cbn [F64.UpdateOne find]; [reflexivity|].
  destruct (F64.has_ID id d) eqn:Hd.
  - cbn [find]. unfold F64.has_ID in *. rewrite Hid, Hd. reflexivity.
  - cbn [find]. rewrite Hd. exact IH.
Qed.

(** After [markTransactionFailed] the document under the id is the one it
    was, or has status failed. *)
Lemma F64_markTransactionFailed_log (w : F64.World) id err now fails d d' :
  F64.FindOne (F64.has_ID id) (F64.mongodb w) = Some d ->
  F64.FindOne (F64.has_ID id) (F64.mongodb (fst (F64.markTransactionFailed w id err now fails)))
    = Some d' ->
  d' = d \/ F64.tx_Status d' = Failed.
Proof.
  intros Hd. unfold F64.markTransactionFailed, F64.UpdateTransactionStatus.
  destruct fails; cbn [fst F64.mongodb].
  - rewrite Hd. intros [= <-]. left. reflexivity.
  - rewrite F64_FindOne_UpdateOne by reflexivity. rewrite Hd.
    intros [= <-]. right. reflexivity.
Qed.

(** What a successful balance mutation returns and writes. *)
Lemma F64_UpdateAccountBalance_ok (column : F64.Column) (db db' : Table) id d now f
    before after :
  F64.UpdateAccountBalance column db id d now f = (db', Ok (before, after)) ->
  exists a cents,
    db !! id = Some a
    /\ before = F64.hundredths (acc_Balance a)
    /\ after = PrimFloat.add before d
    /\ PrimFloat.ltb after PrimFloat.zero = false
    /\ column after = Ok cents
    /\ db' = <[id := mkAccount (acc_ID a) cents (acc_CreatedAt a) now]> db.
Proof.
  unfold F64.UpdateAccountBalance.
  destruct (begin_fails f); [discriminate|].
  unfold query_balance_for_update, BeginTx. cbn [sql_work].
  destruct (select_fails f); [discriminate|].
  destruct (db !! id) as [a|] eqn:Hid; [|discriminate].
  cbn zeta. destruct (PrimFloat.ltb _ PrimFloat.zero) eqn:Hsign; [discriminate|].
  destruct (exec_fails f); [discriminate|].
  destruct (column _) as [cents|e] eqn:Hcolumn; [|discriminate].
  destruct (commit_fails f); [discriminate|].
  unfold Commit, exec_update_balance. cbn [sql_work].
  intros [= <- <- <-]. exists a, cents. repeat split; try assumption.
  rewrite (alter_present _ _ _ _ Hid). reflexivity.
Qed.

(** C4, as the code has it.  Take a message whose type and amount are those
    of the logged document with the same id, not completed so far.  If after
    [ProcessTransaction] that document is completed, then its recorded pair
    is the pair the balance mutation returned: balance_before is the
    [float64] read from the account's row, and balance_after is the
    [float64] sum of balance_before and the amount for a deposit, of
    balance_before and the negated amount for a withdrawal, and is not below
    zero.  The row holds what the column made of balance_after. *)
Theorem completed_records_returned_pair :
  forall (column : F64.Column) (w w' : F64.World) (tx : F64.Transaction) (env : ProcessEnv)
         (err : option error) (d d' : F64.Transaction),
    F64.ProcessTransaction column w tx env = (w', err) ->
    F64.FindOne (F64.has_ID (F64.tx_ID tx)) (F64.mongodb w) = Some d ->
    F64.tx_Type d = F64.tx_Type tx ->
    F64.tx_Amount d = F64.tx_Amount tx ->
    F64.tx_Status d <> Completed ->
    F64.FindOne (F64.has_ID (F64.tx_ID tx)) (F64.mongodb w') = Some d' ->
    F64.tx_Status d' = Completed ->
    exists a cents,
      F64.postgres w !! F64.tx_AccountID tx = Some a
      /\ F64.tx_BalanceBefore d' = F64.hundredths (acc_Balance a)
      /\ (F64.tx_Type d' = Deposit ->
          F64.tx_BalanceAfter d' = PrimFloat.add (F64.tx_BalanceBefore d') (F64.tx_Amount d'))
      /\ (F64.tx_Type d' = Withdrawal ->
          F64.tx_BalanceAfter d' =
            PrimFloat.add (F64.tx_BalanceBefore d') (PrimFloat.opp (F64.tx_Amount d')))
      /\ PrimFloat.ltb (F64.tx_BalanceAfter d') PrimFloat.zero = false
      /\ column (F64.tx_BalanceAfter d') = Ok cents
      /\ F64.postgres w' =
           <[F64.tx_AccountID tx := mkAccount (acc_ID a) cents (acc_CreatedAt a)
                                      (pe_now_balance env)]> (F64.postgres w).
Proof.
  intros column w w' tx env err d d' Hrun Hd Htype Hamount Hpending Hd' Hcompleted.
  unfold F64.ProcessTransaction in Hrun.
  destruct (Postgres.GetAccount _ _ _) as [acct|e].
  2:{ exfalso.
      pose proof (F64_markTransactionFailed_log w (F64.tx_ID tx) (Wrapf "account not found" e)
                    (pe_now_status env) (pe_status_fails env) d d' Hd) as Hlog.
      rewrite Hrun in Hlog. destruct (Hlog Hd') as [->|Hfailed]; [contradiction|].
      rewrite Hfailed in Hcompleted. discriminate. }
  cbn zeta in Hrun.
  destruct (F64.UpdateAccountBalance _ _ _ _ _ _) as [db [[before after]|e]] eqn:Hupd.
  2:{ exfalso.
      pose proof (F64_markTransactionFailed_log (F64.mkWorld db (F64.mongodb w)) (F64.tx_ID tx)
                    (Wrapf "failed to update balance" e)
                    (pe_now_status env) (pe_status_fails env) d d' Hd) as Hlog.
      rewrite Hrun in Hlog. destruct (Hlog Hd') as [->|Hfailed]; [contradiction|].
      rewrite Hfailed in Hcompleted. discriminate. }
  apply F64_UpdateAccountBalance_ok in Hupd
    as (a & cents & Ha & -> & -> & Hsign & Hcolumn & ->).
  unfold F64.UpdateTransactionStatus in Hrun.
  destruct (pe_status_fails env).
  { exfalso. injection Hrun as <- _. cbn [F64.mongodb] in Hd'.
    rewrite Hd in Hd'. injection Hd' as <-. contradiction. }
  injection Hrun as <- _. cbn [F64.mongodb F64.postgres] in *.
  rewrite F64_FindOne_UpdateOne in Hd' by reflexivity.
  rewrite Hd in Hd'. injection Hd' as <-.
  exists a, cents. split; [exact Ha|].
  cbn [F64.set_status F64.tx_BalanceBefore F64.tx_BalanceAfter F64.tx_Type F64.tx_Amount].
  split; [reflexivity|]. rewrite Htype, Hamount. unfold F64.signed_amount in *.
  split; [|split; [|split; [exact Hsign|split; [exact Hcolumn|reflexivity]]]].
  - intros Hdep. rewrite Hdep. reflexivity.
  - intros Hwd. rewrite Hwd. reflexivity.
Qed.

Lemma completed_records_returned_pair_witness :
  exists a cents,
    F64.postgres million_world !! "acc-6" = Some a
    /\ F64.hundredths 100000000 = F64.hundredths (acc_Balance a)
    /\ (Withdrawal = Deposit ->
        PrimFloat.add (F64.hundredths 100000000) (PrimFloat.opp (F64.hundredths 99999999)) =
        PrimFloat.add (F64.hundredths 100000000) (F64.hundredths 99999999))
    /\ (Withdrawal = Withdrawal ->
        PrimFloat.add (F64.hundredths 100000000) (PrimFloat.opp (F64.hundredths 99999999)) =
        PrimFloat.add (F64.hundredths 100000000) (PrimFloat.opp (F64.hundredths 99999999)))
    /\ PrimFloat.ltb
         (PrimFloat.add (F64.hundredths 100000000) (PrimFloat.opp (F64.hundredths 99999999)))
         PrimFloat.zero = false
    /\ F64.exact_hundredths
         (PrimFloat.add (F64.hundredths 100000000) (PrimFloat.opp (F64.hundredths 99999999)))
       = Ok cents
    /\ F64.postgres
         (fst (F64.ProcessTransaction F64.exact_hundredths million_world large_withdrawal
                 (no_process_faults 30 31))) =
         <[ "acc-6" := mkAccount (acc_ID a) cents (acc_CreatedAt a) 30 ]>
           (F64.postgres million_world).
Proof.
  apply (completed_records_returned_pair F64.exact_hundredths million_world
           (fst (F64.ProcessTransaction F64.exact_hundredths million_world large_withdrawal
                   (no_process_faults 30 31)))
           large_withdrawal (no_process_faults 30 31) None large_withdrawal
           (F64.set_status Completed (F64.hundredths 100000000)
              (PrimFloat.add (F64.hundredths 100000000)
                 (PrimFloat.opp (F64.hundredths 99999999))) 31 large_withdrawal)).
  - vm_compute. reflexivity.
  - reflexivity.
  - reflexivity.
  - reflexivity.
  - discriminate.
  - vm_compute. reflexivity.
  - reflexivity.
Defined.

(** C4, as the specification has it, fails.  The withdrawal of 999999.99
    from 1000000.00 is completed with balance_before 1000000 and a
    balance_after that is not 0.01, the decimal difference, but a [float64]
    above it; the row holds 0.01. *)
Lemma recorded_pair_is_not_decimal :
  F64.ProcessTransaction F64.exact_hundredths million_world large_withdrawal
    (no_process_faults 30 31) =
    (F64.mkWorld
       (<[ "acc-6" := mkAccount "acc-6" 1 5 30 ]> million_table)
       [F64.set_status Completed (F64.hundredths 100000000)
          (PrimFloat.add (F64.hundredths 100000000) (PrimFloat.opp (F64.hundredths 99999999)))
          31 large_withdrawal],
     None)
  /\ PrimFloat.eqb
       (PrimFloat.add (F64.hundredths 100000000) (PrimFloat.opp (F64.hundredths 99999999)))
       (F64.hundredths 1) = false
  /\ PrimFloat.ltb (F64.hundredths 1)
       (PrimFloat.add (F64.hundredths 100000000) (PrimFloat.opp (F64.hundredths 99999999)))
     = true.
Proof.
  repeat split; vm_compute; reflexivity.
Qed.

(** C5, evaluated on a redelivered message.  The log holds transaction tx-1
    as completed with the pair (50.00, 100.00) and the account holds 100.00;
    the message of tx-1 is delivered once more.  [ProcessTransaction] reads
    nothing from the log: it mutates the balance again, to 150.00. *)
Lemma redelivery_mutates_balance :
  FindOne (has_ID "tx-1") (mongodb settled_world) = Some completed_deposit
  /\ tx_Status completed_deposit = Completed
  /\ postgres settled_world !! "acc-1" = Some (mkAccount "acc-1" 10000 5 5)
  /\ postgres (fst (TransactionService.ProcessTransaction settled_world pending_deposit (no_process_faults 30 31)))
       !! "acc-1" = Some (mkAccount "acc-1" 15000 5 30)
  /\ postgres (fst (TransactionService.ProcessTransaction settled_world pending_deposit (no_process_faults 30 31)))
       <> postgres settled_world.
Proof.
  repeat split; try (vm_compute; reflexivity).
  intros Hsame. apply (f_equal (fun db : Table => db !! "acc-1")) in Hsame.
  vm_compute in Hsame. discriminate Hsame.
Qed.




(** ** Listing the transactions of an account *)

Example Atoi_zero : Atoi "0" = Ok 0.
Proof. reflexivity. Qed.

Example Atoi_signed : Atoi "-25" = Ok (-25) /\ Atoi "+7" = Ok 7.
Proof. split; reflexivity. Qed.

Example Atoi_rejects : Atoi "1x" = Err ErrSyntax /\ Atoi "-" = Err ErrSyntax
  /\ Atoi EmptyString = Err ErrSyntax /\ Atoi "9223372036854775808" = Err ErrRange.
Proof. repeat split; reflexivity. Qed.

#[local] Instance newer_or_same_total : Total newer_or_same.
Proof. intros a b. unfold newer_or_same. lia. Qed.

#[local] Instance newer_or_same_trans : Transitive newer_or_same.
Proof. intros a b c. unfold newer_or_same. lia. Qed.

Lemma parse_limit_positive (limitStr : string) : 0 < parse_limit limitStr.
Proof.
  unfold parse_limit. case_bool_decide; [lia|].
  destruct (Atoi limitStr) as [n|]; [|lia].
  destruct (Z.ltb_spec 0 n); lia.
Qed.

Lemma parse_offset_nonnegative (offsetStr : string) : 0 <= parse_offset offsetStr.
Proof.
  unfold parse_offset. case_bool_decide; [lia|].
  destruct (Atoi offsetStr) as [n|]; [|lia].
  destruct (Z.leb_spec 0 n); lia.
Qed.

Lemma parse_offset_Atoi (offsetStr : string) (n : Z) :
  Atoi offsetStr = Ok n -> 0 <= n -> parse_offset offsetStr = n.
Proof.
  intros Hparse Hn. unfold parse_offset. case_bool_decide as Hempty.
  - subst offsetStr. discriminate Hparse.
  - rewrite Hparse. destruct (Z.leb_spec 0 n); [reflexivity|lia].
Qed.

(** What the handler returns when the driver does not fail: the account's
    documents, newest first, without the first [parse_offset] of them, cut
    to [parse_limit]. *)
Lemma GetTransactions_page (w : World) accountID limitStr offsetStr :
  Handler.GetTransactions w accountID limitStr offsetStr false =
    RespTransactions StatusOK
      (full_response <$>
         take (Z.to_nat (parse_limit limitStr))
           (drop (Z.to_nat (parse_offset offsetStr))
              (merge_sort newer_or_same
                 (List.filter (has_AccountID accountID) (mongodb w))))).
Proof.
  unfold Handler.GetTransactions, TransactionService.GetTransactionsByAccountID, MongoDB.GetTransactionsByAccountID.
  pose proof (parse_limit_positive limitStr) as Hlimit.
  pose proof (parse_offset_nonnegative offsetStr) as Hoffset.
  cbn [orb]. destruct (Z.ltb_spec (parse_offset offsetStr) 0); [lia|].
  unfold apply_limit. destruct (Z.eqb_spec (parse_limit limitStr) 0); [lia|].
  rewrite Z.abs_eq by lia. reflexivity.
Qed.

Lemma page_sorted (l : list Transaction) (n k : nat) :
  StronglySorted newer_or_same l ->
  StronglySorted (fun a b => resp_CreatedAt b <= resp_CreatedAt a)
    (full_response <$> take n (drop k l)).
Proof.
  intros Hsorted.
  apply StronglySorted_fmap with (R1 := newer_or_same); [intros a b Hab; exact Hab|].
  apply (StronglySorted_app_1_l _ _ (drop n (drop k l))). rewrite take_drop.
  apply (StronglySorted_app_1_r _ (take k l)). rewrite take_drop. exact Hsorted.
Qed.

Lemma page_of_account (c : Collection) accountID (n k : nat) :
  Forall (fun r => resp_AccountID r = accountID)
    (full_response <$>
       take n (drop k (merge_sort newer_or_same (List.filter (has_AccountID accountID) c)))).
Proof.
  apply Forall_fmap, Forall_take, Forall_drop.
  rewrite merge_sort_Permutation. apply List.Forall_forall.
  intros d Hd. apply List.filter_In in Hd as [_ Hd].
  unfold has_AccountID in Hd. apply bool_decide_eq_true in Hd. exact Hd.
Qed.

(** C9, as the code has it.  The handler replaces [limit=0] by the default
    of 10, so the page holds the ten newest transactions after the offset;
    an offset that [strconv.Atoi] accepts and that is at or past the number
    of the account's transactions gives the empty page; every page is
    ordered newest first on created_at, holds transactions of the account
    only, and is no longer than the limit read from the query; and an offset
    that [strconv.Atoi] refuses, or a negative one, is read as 0. *)
Theorem list_transactions_paging :
  forall (w : World) (accountID : string),
    (forall offsetStr,
        Handler.GetTransactions w accountID "0" offsetStr false =
          RespTransactions StatusOK
            (full_response <$>
               take 10 (drop (Z.to_nat (parse_offset offsetStr))
                          (merge_sort newer_or_same
                             (List.filter (has_AccountID accountID) (mongodb w))))))
    /\ (forall limitStr offsetStr n,
        Atoi offsetStr = Ok n ->
        Z.of_nat (length (List.filter (has_AccountID accountID) (mongodb w))) <= n ->
        Handler.GetTransactions w accountID limitStr offsetStr false =
          RespTransactions StatusOK [])
    /\ (forall limitStr offsetStr,
        exists page,
          Handler.GetTransactions w accountID limitStr offsetStr false =
            RespTransactions StatusOK page
          /\ StronglySorted (fun a b => resp_CreatedAt b <= resp_CreatedAt a) page
          /\ Forall (fun r => resp_AccountID r = accountID) page
          /\ Z.of_nat (length page) <= parse_limit limitStr)
    /\ (forall limitStr offsetStr,
        is_ok (Atoi offsetStr) = false \/ (exists n, Atoi offsetStr = Ok n /\ n < 0) ->
        Handler.GetTransactions w accountID limitStr offsetStr false =
          Handler.GetTransactions w accountID limitStr EmptyString false).
Proof.
  intros w accountID. split; [|split; [|split]].
  - intros offsetStr. rewrite GetTransactions_page. reflexivity.
  - intros limitStr offsetStr n Hparse Hpast.
    rewrite GetTransactions_page.
    rewrite (parse_offset_Atoi _ _ Hparse) by lia.
    rewrite drop_ge.
    + rewrite take_nil. reflexivity.
    + rewrite merge_sort_Permutation. lia.
  - intros limitStr offsetStr. eexists. split; [apply GetTransactions_page|].
    split; [|split].
    + apply page_sorted. apply StronglySorted_merge_sort; apply _.
    + apply page_of_account.
    + pose proof (parse_limit_positive limitStr).
      rewrite length_fmap, length_take. lia.
  - intros limitStr offsetStr Hrefused. rewrite !GetTransactions_page.
    replace (parse_offset offsetStr) with (parse_offset EmptyString); [reflexivity|].
    unfold parse_offset. rewrite (bool_decide_eq_true_2 (EmptyString = EmptyString)) by reflexivity.
    case_bool_decide; [reflexivity|].
    destruct Hrefused as [Herr|(n & -> & Hneg)].
    + destruct (Atoi offsetStr); [discriminate|reflexivity].
    + destruct (Z.leb_spec 0 n); [lia|reflexivity].
Qed.

Lemma list_transactions_paging_witness :
  Handler.GetTransactions history_world "acc-1" "0" "1" false =
    RespTransactions StatusOK
      (full_response <$>
         take 10 (drop (Z.to_nat (parse_offset "1"))
                    (merge_sort newer_or_same
                       (List.filter (has_AccountID "acc-1") (mongodb history_world)))))
  /\ Handler.GetTransactions history_world "acc-1" "5" "2" false = RespTransactions StatusOK []
  /\ exists page,
       Handler.GetTransactions history_world "acc-1" "5" "0" false =
         RespTransactions StatusOK page
       /\ StronglySorted (fun a b => resp_CreatedAt b <= resp_CreatedAt a) page
       /\ Forall (fun r => resp_AccountID r = "acc-1") page
       /\ Z.of_nat (length page) <= parse_limit "5".
Proof.
  destruct (list_transactions_paging history_world "acc-1") as (Hzero & Hpast & Hpage & _).
  split; [apply Hzero|]. split; [|apply Hpage].
  apply (Hpast "5" "2" 2); [reflexivity|vm_compute; discriminate].
Defined.

(** C9, as the specification has it, fails on [limit=0]: the account has two
    transactions and the page asked for with [limit=0] holds both, the
    withdrawal created at 9 before the deposit created at 7.  The gateway
    called with limit 0 returns both as well.  It fails on the offset too
    when the offset does not fit an [int]: 9223372036854775808 is past the
    end, [strconv.Atoi] refuses it, and the page holds both transactions. *)
Lemma limit_zero_page_is_not_empty :
  Handler.GetTransactions history_world "acc-1" "0" EmptyString false =
    RespTransactions StatusOK [full_response pending_withdrawal; full_response completed_deposit]
  /\ MongoDB.GetTransactionsByAccountID (mongodb history_world) "acc-1" 0 0 false =
       Ok [pending_withdrawal; completed_deposit]
  /\ Atoi "9223372036854775808" = Err ErrRange
  /\ Handler.GetTransactions history_world "acc-1" EmptyString "9223372036854775808" false =
       RespTransactions StatusOK
         [full_response pending_withdrawal; full_response completed_deposit].
Proof.
  repeat split; vm_compute; reflexivity.
Qed.

(** ** The consumer's acknowledgements *)

Lemma answer_decodes (d : Delivery) :
  decodes d = true -> answer d = Ack (dlv_tag d) false.
Proof.
  unfold decodes, answer. destruct (json_Unmarshal (dlv_body d)); [reflexivity|discriminate].
Qed.

Lemma answer_not_decodes (d : Delivery) :
  decodes d = false -> answer d = Reject (dlv_tag d) false.
Proof.
  unfold decodes, answer. destruct (json_Unmarshal (dlv_body d)); [discriminate|reflexivity].
Qed.

Lemma filter_snoc_true (d : Delivery) (l : list Delivery) :
  decodes d = true -> List.filter decodes (l ++ [d]) = List.filter decodes l ++ [d].
Proof. intros Hd. rewrite List.filter_app. cbn [List.filter]. rewrite Hd. reflexivity. Qed.

Lemma filter_snoc_false (d : Delivery) (l : list Delivery) :
  decodes d = false -> List.filter decodes (l ++ [d]) = List.filter decodes l.
Proof.
  intros Hd. rewrite List.filter_app. cbn [List.filter]. rewrite Hd. apply app_nil_r.
Qed.

(** Projections of a [System] and the consumer's and processor's bookkeeping,
    computed in the goal and in every hypothesis. *)
Ltac sys_simpl :=
  cbn [sys_world sys_msgs sys_consumer sys_processor sys_acks sys_finished
       unanswered handed_unacked in_process] in *.

Lemma start_invariant (w : World) (msgs : list Delivery) :
  consumer_invariant msgs (start w msgs).
Proof. exists []. repeat split. constructor. Qed.

Lemma step_invariant (msgs : list Delivery) (s s' : System) (m : Move) :
  consumer_invariant msgs s -> step s m = Some s' -> consumer_invariant msgs s'.
Proof.
  intros (consumed & Hmsgs & Hacks & Hhanded & Hdec) Hstep.
  unfold handed_over in Hhanded.
  destruct s as [w rest pc ppc acks fin].
  destruct m as [|env| |]; cbn [step] in Hstep; sys_simpl.
  - destruct pc as [|d tx|d|].
    + destruct rest as [|msg rest]; [discriminate|].
      destruct (json_Unmarshal (dlv_body msg)) as [tx|e] eqn:Hjson.
      * injection Hstep as <-. exists consumed. unfold handed_over. sys_simpl.
        repeat split; try assumption.
        constructor; [|constructor]. unfold decodes. rewrite Hjson. reflexivity.
      * injection Hstep as <-. exists (consumed ++ [msg]).
        assert (decodes msg = false) as Hno by (unfold decodes; rewrite Hjson; reflexivity).
        unfold handed_over. sys_simpl.
        repeat split.
        -- rewrite Hmsgs, <- app_assoc. reflexivity.
        -- rewrite fmap_app, Hacks. cbn. rewrite (answer_not_decodes _ Hno). reflexivity.
        -- rewrite (filter_snoc_false _ _ Hno). exact Hhanded.
        -- constructor.
    + destruct ppc; try discriminate. injection Hstep as <-. exists consumed.
      unfold handed_over. sys_simpl.
      repeat split; try assumption.
      rewrite !app_nil_r in Hhanded. rewrite Hhanded. reflexivity.
    + injection Hstep as <-. exists (consumed ++ [d]).
      assert (decodes d = true) as Hyes by (inversion Hdec; assumption).
      unfold handed_over. sys_simpl.
      repeat split.
      * rewrite Hmsgs, <- app_assoc. reflexivity.
      * rewrite fmap_app, Hacks. cbn. rewrite (answer_decodes _ Hyes). reflexivity.
      * rewrite (filter_snoc_true _ _ Hyes), fmap_app, app_nil_r. exact Hhanded.
      * constructor.
    + discriminate.
  - destruct ppc as [|tag tx|]; try discriminate.
    destruct (TransactionService.ProcessTransaction w tx env) as [w' err]. injection Hstep as <-.
    exists consumed. unfold handed_over. sys_simpl.
    repeat split; try assumption.
    rewrite fmap_app, app_nil_r. exact Hhanded.
  - destruct pc; try discriminate. injection Hstep as <-. exists consumed.
    unfold handed_over. sys_simpl.
    repeat split; assumption.
  - destruct ppc; try discriminate. injection Hstep as <-. exists consumed.
    unfold handed_over. sys_simpl.
    repeat split; assumption.
Qed.

Lemma run_invariant (msgs : list Delivery) (schedule : list Move) :
  forall s s', consumer_invariant msgs s -> run s schedule = Some s' ->
               consumer_invariant msgs s'.
Proof.
  induction schedule as [|m schedule IH]; intros s s' Hinv Hrun; cbn [run] in Hrun.
  - injection Hrun as <-. exact Hinv.
  - destruct (step s m) as [s1|] eqn:Hstep; [|discriminate].
    apply (IH s1); [|exact Hrun]. apply (step_invariant msgs s s1 m); assumption.
Qed.

Lemma answer_cases (d : Delivery) :
  (decodes d = true /\ answer d = Ack (dlv_tag d) false)
  \/ (decodes d = false /\ answer d = Reject (dlv_tag d) false).
Proof.
  destruct (decodes d) eqn:Hd.
  - left. split; [reflexivity|apply answer_decodes; exact Hd].
  - right. split; [reflexivity|apply answer_not_decodes; exact Hd].
Qed.

(** C10, as the code has it.  In every state the two goroutines reach from
    their start on the deliveries [msgs], under any schedule and with any
    failures inside [ProcessTransaction]: the answers given to the broker are
    those of a prefix of [msgs], each read off the delivery's body alone;
    no delivery is rejected with requeue; every ack is a single ack of a
    delivery already handed over [txChan]; and whenever the consumer stands
    at its ack, the ack is its next step, whatever the processor is doing and
    whatever processing has returned. *)
Theorem consumer_acks_unconditionally :
  forall (w : World) (msgs : list Delivery) (schedule : list Move) (s : System),
    run (start w msgs) schedule = Some s ->
    consumer_invariant msgs s
    /\ (forall tag, Reject tag true ∉ sys_acks s)
    /\ (forall tag multiple,
           Ack tag multiple ∈ sys_acks s -> multiple = false /\ tag ∈ handed_over s)
    /\ (forall d, sys_consumer s = CAck d ->
           step s ConsumerMove =
             Some (mkSystem (sys_world s) (sys_msgs s) CSelect (sys_processor s)
                     (sys_acks s ++ [Ack (dlv_tag d) false]) (sys_finished s))).
Proof.
  intros w msgs schedule s Hrun.
  pose proof (run_invariant msgs schedule _ _ (start_invariant w msgs) Hrun) as Hinv.
  split; [exact Hinv|].
  destruct Hinv as (consumed & _ & Hacks & Hhanded & _).
  split; [|split].
  - intros tag Hin. rewrite Hacks in Hin.
    apply list_elem_of_fmap in Hin as (d & Heq & _).
    destruct (answer_cases d) as [[_ Ha]|[_ Ha]]; rewrite Ha in Heq; discriminate.
  - intros tag multiple Hin. rewrite Hacks in Hin.
    apply list_elem_of_fmap in Hin as (d & Heq & Hd).
    destruct (answer_cases d) as [[Hyes Ha]|[_ Ha]]; rewrite Ha in Heq; [|discriminate].
    injection Heq as -> ->. split; [reflexivity|].
    rewrite <- Hhanded. apply elem_of_app. left.
    apply list_elem_of_fmap. exists d. split; [reflexivity|].
    apply list_elem_of_In, List.filter_In. split; [|exact Hyes].
    apply list_elem_of_In. exact Hd.
  - intros d Hpc. unfold step. rewrite Hpc. reflexivity.
Qed.

Lemma consumer_acks_unconditionally_witness :
  consumer_invariant one_delivery after_processor_first
  /\ (forall tag, Reject tag true ∉ sys_acks after_processor_first)
  /\ (forall tag multiple,
         Ack tag multiple ∈ sys_acks after_processor_first ->
         multiple = false /\ tag ∈ handed_over after_processor_first)
  /\ (forall d, sys_consumer after_processor_first = CAck d ->
         step after_processor_first ConsumerMove =
           Some (mkSystem (sys_world after_processor_first) (sys_msgs after_processor_first)
                   CSelect (sys_processor after_processor_first)
                   (sys_acks after_processor_first ++ [Ack (dlv_tag d) false])
                   (sys_finished after_processor_first))).
Proof.
  apply (consumer_acks_unconditionally pending_world one_delivery processor_first).
  vm_compute. reflexivity.
Defined.

(** C10, as the specification has it, fails on the order of the ack and the
    end of processing: after the handoff the processor may run
    [ProcessTransaction] to its return while the consumer has not yet
    acknowledged the delivery. *)
Lemma processing_can_finish_before_ack :
  run (start pending_world one_delivery) processor_first = Some after_processor_first
  /\ sys_finished after_processor_first = [(1%nat, pending_deposit, None)]
  /\ sys_consumer after_processor_first = CAck (mkDelivery 1 (JSON pending_deposit))
  /\ sys_acks after_processor_first = [].
Proof.
  split; [vm_compute; reflexivity|]. repeat split.
Qed.

(** * Further properties of the balance store *)

(** What one operation does to a row that is there: the row stays, and so
    do its id and its created_at. *)
Lemma apply_op_row (db : Table) (op : Op) (id : string) (a : Account) :
  db !! id = Some a ->
  exists a',
    apply_op db op !! id = Some a'
    /\ acc_ID a' = acc_ID a
    /\ acc_CreatedAt a' = acc_CreatedAt a.
Proof.
  intros Ha. destruct op as [initialBalance uuid now fails|id' amount now f];
    cbn [apply_op].
  - exists a. repeat split.
    unfold AccountService.CreateAccount, Postgres.CreateAccount.
    destruct (initialBalance <? 0); [exact Ha|].
    destruct fails; [exact Ha|].
    destruct (db !! uuid) eqn:Huuid; [exact Ha|]. cbn [fst].
    rewrite lookup_insert_ne; [exact Ha|]. intros ->. rewrite Huuid in Ha. discriminate.
  - destruct (Postgres.UpdateAccountBalance db id' amount now f)
      as [db' [[before after]|e]] eqn:Hrun; cbn [fst].
    + apply UpdateAccountBalance_ok in Hrun as (a0 & Ha0 & _ & _ & _ & ->).
      destruct (decide (id' = id)) as [->|Hid].
      * rewrite Ha in Ha0. injection Ha0 as <-.
        rewrite lookup_insert_eq. eexists. split; [reflexivity|]. repeat split.
      * rewrite lookup_insert_ne by assumption. exists a. repeat split. exact Ha.
    + pose proof (UpdateAccountBalance_error_keeps_table db id' amount now f e) as Hkeep.
      rewrite Hrun in Hkeep. cbn [fst snd] in Hkeep. rewrite Hkeep by reflexivity.
      exists a. repeat split. exact Ha.
Qed.

(** X2.  No sequence of account creations and balance mutations deletes an
    account or changes its id or its created_at. *)
Theorem account_identity_is_kept :
  forall (ops : list Op) (db : Table) (id : string) (a : Account),
    db !! id = Some a ->
    exists a',
      run_ops db ops !! id = Some a'
      /\ acc_ID a' = acc_ID a
      /\ acc_CreatedAt a' = acc_CreatedAt a.
Proof.
  unfold run_ops. induction ops as [|op ops IH]; intros db id a Ha; cbn [foldl].
  - exists a. repeat split. exact Ha.
  - destruct (apply_op_row db op id a Ha) as (a1 & Ha1 & Hid & Hcreated).
    destruct (IH _ _ _ Ha1) as (a' & Ha' & Hid' & Hcreated').
    exists a'. split; [exact Ha'|]. split; congruence.
Qed.

Lemma account_identity_is_kept_witness :
  exists a',
    run_ops sample_table mixed_ops !! "acc-1" = Some a'
    /\ acc_ID a' = "acc-1"
    /\ acc_CreatedAt a' = 5.
Proof.
  apply (account_identity_is_kept mixed_ops sample_table "acc-1" sample_account).
  reflexivity.
Defined.

(** X3.  A balance mutation writes to the one row it names: every other row
    is what it was, and when the named account does not exist nothing is
    created, the table is unchanged and an error is returned, the wrapped
    no-rows error when the scope opens and the query is carried out. *)
Theorem apply_delta_touches_one_row :
  forall (db : Table) (id : string) (d : Z) (now : Time) (f : TxFaults),
    (forall k, k <> id -> fst (Postgres.UpdateAccountBalance db id d now f) !! k = db !! k)
    /\ (db !! id = None ->
        fst (Postgres.UpdateAccountBalance db id d now f) = db
        /\ is_ok (snd (Postgres.UpdateAccountBalance db id d now f)) = false
        /\ (begin_fails f = false -> select_fails f = false ->
            snd (Postgres.UpdateAccountBalance db id d now f) =
              Err (Wrapf "Failed to get current balance" ErrNoRows))).
Proof.
  intros db id d now f. split.
  - intros k Hk.
    destruct (Postgres.UpdateAccountBalance db id d now f)
      as [db' [[before after]|e]] eqn:Hrun; cbn [fst].
    + apply UpdateAccountBalance_ok in Hrun as (a & _ & _ & _ & _ & ->).
      apply lookup_insert_ne. congruence.
    + pose proof (UpdateAccountBalance_error_keeps_table db id d now f e) as Hkeep.
      rewrite Hrun in Hkeep. cbn [fst snd] in Hkeep. rewrite Hkeep; reflexivity.
  - intros Hnone. unfold Postgres.UpdateAccountBalance, query_balance_for_update, BeginTx.
    cbn [sql_work]. rewrite Hnone.
    destruct (begin_fails f); [repeat split; discriminate|].
    destruct (select_fails f); repeat split; discriminate.
Qed.

Lemma apply_delta_touches_one_row_witness :
  (forall k, k <> "acc-7" ->
     fst (Postgres.UpdateAccountBalance sample_table "acc-7" 100 9 no_tx_faults) !! k
       = sample_table !! k)
  /\ fst (Postgres.UpdateAccountBalance sample_table "acc-7" 100 9 no_tx_faults) = sample_table
  /\ is_ok (snd (Postgres.UpdateAccountBalance sample_table "acc-7" 100 9 no_tx_faults)) = false
  /\ (begin_fails no_tx_faults = false -> select_fails no_tx_faults = false ->
      snd (Postgres.UpdateAccountBalance sample_table "acc-7" 100 9 no_tx_faults) =
        Err (Wrapf "Failed to get current balance" ErrNoRows)).
Proof.
  destruct (apply_delta_touches_one_row sample_table "acc-7" 100 9 no_tx_faults)
    as [Hframe Hmissing].
  split; [exact Hframe|]. apply Hmissing. reflexivity.
Defined.

(** * Further properties of the transaction log *)

Lemma FindOne_app (p : Transaction -> bool) (c k : Collection) :
  FindOne p (c ++ k) =
    match FindOne p c with
    | Some d => Some d
    | None => FindOne p k
    end.
Proof.
  unfold FindOne. induction c as [|x c IH]; cbn [app find]; [reflexivity|].
  destruct (p x); [reflexivity|exact IH].
Qed.

Lemma existsb_false_FindOne (p q : Transaction -> bool) (c : Collection) :
  existsb (fun x => p x || q x) c = false -> FindOne p c = None /\ FindOne q c = None.
Proof.
  unfold FindOne. induction c as [|x c IH]; cbn [existsb find]; [split; reflexivity|].
  intros Hex. apply orb_false_elim in Hex as [Hx Hc]. apply orb_false_elim in Hx as [-> ->].
  exact (IH Hc).
Qed.

Lemma FindOne_None_not_in (key : Transaction -> string) (v : string) (c : Collection) :
  FindOne (fun d => bool_decide (key d = v)) c = None -> v ∉ key <$> c.
Proof.
  unfold FindOne. induction c as [|x c IH]; cbn [find]; intros Hfind Hin.
  - inversion Hin.
  - case_bool_decide as Hx; [discriminate|].
    cbn in Hin. apply elem_of_cons in Hin as [->|Hin]; [congruence|]. exact (IH Hfind Hin).
Qed.

Lemma NoDup_snoc_fresh (l : list string) (v : string) :
  NoDup l -> v ∉ l -> NoDup (l ++ [v]).
Proof.
  intros Hl Hv. apply NoDup_app. split; [exact Hl|]. split.
  - intros x Hx Hxv. apply list_elem_of_singleton in Hxv. subst x. contradiction.
  - apply NoDup_singleton.
Qed.

(** An insert that is carried out appends the document, and only when
    neither its id nor its reference is in the collection. *)
Lemma InsertOne_cases (c : Collection) (d : Transaction) (fails : bool) :
  (exists e, InsertOne c d fails = (c, Some e))
  \/ (InsertOne c d fails = (c ++ [d], None)
      /\ FindOne (has_ID (tx_ID d)) c = None
      /\ FindOne (has_Reference (tx_Reference d)) c = None).
Proof.
  unfold InsertOne. destruct fails; [left; eexists; reflexivity|].
  destruct (existsb _ c) eqn:Hex; [left; eexists; reflexivity|].
  right. split; [reflexivity|]. exact (existsb_false_FindOne _ _ _ Hex).
Qed.

Lemma InsertOne_unique (c : Collection) (d : Transaction) (fails : bool) :
  unique_keys c -> unique_keys (fst (InsertOne c d fails)).
Proof.
  intros [Hids Hrefs].
  destruct (InsertOne_cases c d fails) as [[e ->]|(-> & Hid & Href)]; cbn [fst].
  - split; assumption.
  - unfold unique_keys. rewrite !fmap_app. cbn [fmap list_fmap]. split.
    + apply NoDup_snoc_fresh; [exact Hids|].
      apply (FindOne_None_not_in tx_ID). exact Hid.
    + apply NoDup_snoc_fresh; [exact Hrefs|].
      apply (FindOne_None_not_in tx_Reference). exact Href.
Qed.

Lemma concurrent_inserts_unique (others : list Transaction) :
  forall c, unique_keys c -> unique_keys (concurrent_inserts c others).
Proof.
  unfold concurrent_inserts.
  induction others as [|d others IH]; intros c Hc; cbn [foldl]; [exact Hc|].
  apply IH, InsertOne_unique, Hc.
Qed.

Lemma concurrent_inserts_extends (others : list Transaction) :
  forall c, exists k, concurrent_inserts c others = c ++ k.
Proof.
  unfold concurrent_inserts.
  induction others as [|d others IH]; intros c; cbn [foldl].
  - exists []. rewrite app_nil_r. reflexivity.
  - destruct (InsertOne_cases c d false) as [[e ->]|(-> & _)]; cbn [fst].
    + apply IH.
    + destruct (IH (c ++ [d])) as [k ->]. exists ([d] ++ k). rewrite app_assoc. reflexivity.
Qed.

Lemma UpdateOne_keys (p : Transaction -> bool) status before after now (c : Collection) :
  tx_ID <$> UpdateOne p (set_status status before after now) c = tx_ID <$> c
  /\ tx_Reference <$> UpdateOne p (set_status status before after now) c = tx_Reference <$> c.
Proof.
  induction c as [|d c [IHid IHref]]; cbn [UpdateOne]; [split; reflexivity|].
  destruct (p d); [split; reflexivity|]. cbn [fmap list_fmap] in *.
  split; f_equal; assumption.
Qed.

Lemma UpdateTransactionStatus_unique (c : Collection) id status before after now fails :
  unique_keys c ->
  unique_keys (fst (MongoDB.UpdateTransactionStatus c id status before after now fails)).
Proof.
  intros Hc. unfold MongoDB.UpdateTransactionStatus. destruct fails; [exact Hc|].
  cbn [fst]. unfold unique_keys.
  destruct (UpdateOne_keys (has_ID id) status before after now c) as [-> ->]. exact Hc.
Qed.

(** The log after [ProcessTransaction]: what it was, or what it was with the
    document of the message's id rewritten to a terminal status. *)
Lemma ProcessTransaction_log (w : World) (tx : Transaction) (env : ProcessEnv) :
  mongodb (fst (TransactionService.ProcessTransaction w tx env)) = mongodb w
  \/ exists status before after,
       terminal status
       /\ mongodb (fst (TransactionService.ProcessTransaction w tx env)) =
            UpdateOne (has_ID (tx_ID tx))
              (set_status status before after (pe_now_status env)) (mongodb w).
Proof.
  unfold TransactionService.ProcessTransaction, TransactionService.markTransactionFailed,
    MongoDB.UpdateTransactionStatus.
  destruct (Postgres.GetAccount _ _ _).
  - cbn zeta. destruct (Postgres.UpdateAccountBalance _ _ _ _ _) as [db [[before after]|e]];
      destruct (pe_status_fails env); cbn [fst mongodb with_mongodb with_postgres].
    + left. reflexivity.
    + right. exists Completed, before, after. split; [left; reflexivity|reflexivity].
    + left. reflexivity.
    + right. exists Failed, 0, 0. split; [right; reflexivity|reflexivity].
  - destruct (pe_status_fails env); cbn [fst mongodb with_mongodb].
    + left. reflexivity.
    + right. exists Failed, 0, 0. split; [right; reflexivity|reflexivity].
Qed.

(** The log after [CreateTransaction]: what it was, extended by the inserts
    of other submitters and at most one document of its own. *)
Lemma CreateTransaction_log (w : World) (req : TransactionRequest) (env : SubmitEnv) :
  mongodb (fst (TransactionService.CreateTransaction w req env)) = mongodb w
  \/ exists d fails,
       mongodb (fst (TransactionService.CreateTransaction w req env)) =
         fst (InsertOne (concurrent_inserts (mongodb w) (se_concurrent env)) d fails).
Proof.
  unfold TransactionService.CreateTransaction.
  destruct (MongoDB.GetTransactionByReference _ _ _) as [[existing|]|e];
    [left; reflexivity| |left; reflexivity].
  cbn zeta. unfold MongoDB.CreateTransaction. cbn [mongodb with_mongodb].
  match goal with |- context [InsertOne ?c ?d ?f] =>
    right; exists d, f; destruct (InsertOne c d f) as [c' [e|]] end.
  - reflexivity.
  - cbn [mongodb with_mongodb rabbitmq]. 
    destruct (RabbitMQ.PublishTransaction _ _ _) as [q [e|]]; reflexivity.
Qed.

Lemma apply_svc_unique (w : World) (op : SvcOp) :
  unique_keys (mongodb w) -> unique_keys (mongodb (apply_svc w op)).
Proof.
  intros Hw. destruct op as [initialBalance uuid now fails|req env|tx env]; cbn [apply_svc].
  - exact Hw.
  - destruct (CreateTransaction_log w req env) as [->|(d & fails & ->)]; [exact Hw|].
    apply InsertOne_unique, concurrent_inserts_unique, Hw.
  - destruct (ProcessTransaction_log w tx env) as [->|(status & before & after & _ & ->)];
      [exact Hw|].
    unfold unique_keys.
    destruct (UpdateOne_keys (has_ID (tx_ID tx)) status before after (pe_now_status env)
                (mongodb w)) as [-> ->].
    exact Hw.
Qed.

(** X5.  The log never holds two transactions with one reference, nor two
    with one id: whatever submissions (with other submitters racing),
    processings and account creations run, with any failures, a log whose
    ids and references are pairwise distinct stays so. *)
Theorem log_keys_stay_unique :
  forall (ops : list SvcOp) (w : World),
    unique_keys (mongodb w) -> unique_keys (mongodb (run_svc w ops)).
Proof.
  unfold run_svc. induction ops as [|op ops IH]; intros w Hw; cbn [foldl]; [exact Hw|].
  apply IH, apply_svc_unique, Hw.
Qed.

Lemma log_keys_stay_unique_witness :
  unique_keys (mongodb (run_svc fresh_world sample_svc_ops)).
Proof.
  apply (log_keys_stay_unique sample_svc_ops fresh_world).
  split; constructor.
Defined.

(** What a successful [CreateTransaction] leaves in the log under the
    normalised reference: the transaction it returns. *)
Lemma CreateTransaction_ok_logged (w w' : World) (req : TransactionRequest) (env : SubmitEnv)
    (tx : Transaction) :
  TransactionService.CreateTransaction w req env = (w', Ok tx) ->
  FindOne (has_Reference (normalized_reference req env)) (mongodb w') = Some tx.
Proof.
  unfold TransactionService.CreateTransaction, MongoDB.GetTransactionByReference.
  destruct (se_lookup_fails env); [discriminate|].
  destruct (FindOne _ (mongodb w)) as [existing|] eqn:Hfind.
  - intros [= <- <-]. exact Hfind.
  - cbn zeta. unfold MongoDB.CreateTransaction. cbn [mongodb with_mongodb].
    match goal with |- context [InsertOne ?c ?d ?f] =>
      destruct (InsertOne_cases c d f) as [[e ->]|(-> & _ & Href)]; [discriminate|]
    end.
    cbn [mongodb with_mongodb rabbitmq].
    destruct (se_publish_fails env); cbn [RabbitMQ.PublishTransaction]; [discriminate|].
    unfold RabbitMQ.PublishTransaction. intros [= <- <-].
    cbn [mongodb with_rabbitmq with_mongodb].
    rewrite FindOne_app. cbn [tx_Reference set_stamps] in Href.
    destruct (bool_decide _) in Href |- *; cbn [tx_Reference set_ID set_stamps] in Href;
      rewrite Href; unfold FindOne, has_Reference; cbn [find tx_Reference set_stamps set_ID];
      rewrite bool_decide_eq_true_2 by reflexivity; reflexivity.
Qed.

(** The replay path of [CreateTransaction]. *)
Lemma CreateTransaction_replay (w : World) (req : TransactionRequest) (env : SubmitEnv)
    (existing : Transaction) :
  FindOne (has_Reference (normalized_reference req env)) (mongodb w) = Some existing ->
  se_lookup_fails env = false ->
  TransactionService.CreateTransaction w req env = (w, Ok existing).
Proof.
  intros Hfound Hlookup.
  unfold TransactionService.CreateTransaction, MongoDB.GetTransactionByReference.
  rewrite Hlookup, Hfound. reflexivity.
Qed.

(** X7.  Submitting a request again under the same, client-supplied
    reference returns the transaction the first submission returned (same id)
    and changes nothing: no second document, no second message. *)
Theorem resubmission_returns_first_transaction :
  forall (w w' : World) (req : TransactionRequest) (env env' : SubmitEnv) (tx : Transaction),
    req_Reference req <> EmptyString ->
    TransactionService.CreateTransaction w req env = (w', Ok tx) ->
    se_lookup_fails env' = false ->
    TransactionService.CreateTransaction w' req env' = (w', Ok tx).
Proof.
  intros w w' req env env' tx Hclient Hfirst Hlookup.
  apply CreateTransaction_ok_logged in Hfirst.
  assert (normalized_reference req env' = normalized_reference req env) as Href.
  { unfold normalized_reference. rewrite !bool_decide_eq_false_2 by assumption. reflexivity. }
  apply CreateTransaction_replay; [|exact Hlookup].
  rewrite Href. exact Hfirst.
Qed.

Lemma resubmission_returns_first_transaction_witness :
  TransactionService.CreateTransaction
    (fst (TransactionService.CreateTransaction fresh_world deposit_request quiet_submit))
    deposit_request racing_submit =
  (fst (TransactionService.CreateTransaction fresh_world deposit_request quiet_submit),
   Ok logged_deposit).
Proof.
  apply (resubmission_returns_first_transaction fresh_world _ deposit_request quiet_submit
           racing_submit logged_deposit).
  - discriminate.
  - vm_compute. reflexivity.
  - reflexivity.
Defined.

(** X8.  When [CreateTransaction] fails at the publish, the new transaction
    is in the log as pending and no message is on the queue; a retry under
    the same client-supplied reference then takes the replay path, returns
    that pending transaction and publishes nothing either. *)
Theorem publish_failure_leaves_pending_unqueued :
  forall (w w' : World) (req : TransactionRequest) (env : SubmitEnv) (e : error),
    TransactionService.CreateTransaction w req env =
      (w', Err (Wrapf "failed to queue transaction" e)) ->
    rabbitmq w' = rabbitmq w
    /\ postgres w' = postgres w
    /\ FindOne (has_Reference (normalized_reference req env)) (mongodb w) = None
    /\ exists tx,
         FindOne (has_Reference (normalized_reference req env)) (mongodb w') = Some tx
         /\ tx_Status tx = Pending
         /\ (forall env',
                req_Reference req <> EmptyString ->
                se_lookup_fails env' = false ->
                TransactionService.CreateTransaction w' req env' = (w', Ok tx)).
Proof.
  intros w w' req env e Hrun.
  unfold TransactionService.CreateTransaction, MongoDB.GetTransactionByReference in Hrun.
  destruct (se_lookup_fails env); [discriminate|].
  destruct (FindOne _ (mongodb w)) as [existing|] eqn:Hfind; [discriminate|].
  cbn zeta in Hrun. unfold MongoDB.CreateTransaction in Hrun.
  cbn [mongodb with_mongodb] in Hrun.
  match type of Hrun with context [InsertOne ?c ?d ?f] =>
    set (stamped := d) in *;
    destruct (InsertOne_cases c stamped f) as [[e' Hins]|(Hins & _ & Href)];
    rewrite Hins in Hrun; [discriminate|]
  end.
  cbn [mongodb with_mongodb rabbitmq] in Hrun. unfold RabbitMQ.PublishTransaction in Hrun.
  destruct (se_publish_fails env); [|discriminate].
  injection Hrun as <- _. cbn [rabbitmq postgres mongodb with_rabbitmq with_mongodb].
  assert (tx_Reference stamped = normalized_reference req env) as Hstamped.
  { unfold stamped. cbn [tx_ID]. rewrite bool_decide_eq_true_2 by reflexivity. reflexivity. }
  assert (FindOne (has_Reference (normalized_reference req env))
            (concurrent_inserts (mongodb w) (se_concurrent env) ++ [stamped]) = Some stamped)
    as Hlogged.
  { rewrite FindOne_app. rewrite Hstamped in Href. rewrite Href.
    unfold FindOne, has_Reference. cbn [find].
    rewrite bool_decide_eq_true_2 by exact Hstamped. reflexivity. }
  repeat split. exists stamped. split; [exact Hlogged|]. split.
  - unfold stamped. cbn [tx_ID]. rewrite bool_decide_eq_true_2 by reflexivity. reflexivity.
  - intros env' Hclient Hlookup. apply CreateTransaction_replay; [|exact Hlookup].
    cbn [mongodb].
    replace (normalized_reference req env') with (normalized_reference req env);
      [exact Hlogged|].
    unfold normalized_reference. rewrite !bool_decide_eq_false_2 by assumption. reflexivity.
Qed.

Lemma publish_failure_leaves_pending_unqueued_witness :
  rabbitmq (fst (TransactionService.CreateTransaction fresh_world deposit_request publish_failure))
    = rabbitmq fresh_world
  /\ postgres (fst (TransactionService.CreateTransaction fresh_world deposit_request publish_failure))
       = postgres fresh_world
  /\ FindOne (has_Reference (normalized_reference deposit_request publish_failure))
       (mongodb fresh_world) = None
  /\ exists tx,
       FindOne (has_Reference (normalized_reference deposit_request publish_failure))
         (mongodb (fst (TransactionService.CreateTransaction fresh_world deposit_request
                          publish_failure))) = Some tx
       /\ tx_Status tx = Pending
       /\ (forall env',
              req_Reference deposit_request <> EmptyString ->
              se_lookup_fails env' = false ->
              TransactionService.CreateTransaction
                (fst (TransactionService.CreateTransaction fresh_world deposit_request
                        publish_failure)) deposit_request env' =
                (fst (TransactionService.CreateTransaction fresh_world deposit_request
                        publish_failure), Ok tx)).
Proof.
  apply (publish_failure_leaves_pending_unqueued fresh_world _ deposit_request publish_failure
           (Wrapf "failed to publish a message" ErrDriver)).
  vm_compute. reflexivity.
Defined.

Lemma FindOne_UpdateOne_ne (id id' : string) (f : Transaction -> Transaction)
    (c : Collection) :
  id <> id' ->
  (forall d, tx_ID (f d) = tx_ID d) ->
  FindOne (has_ID id) (UpdateOne (has_ID id') f c) = FindOne (has_ID id) c.
Proof.
  intros Hne Hid. unfold FindOne.
  induction c as [|d c IH]; cbn [UpdateOne find]; [reflexivity|].
  destruct (has_ID id' d) eqn:Hd.
  - unfold has_ID in Hd. apply bool_decide_eq_true in Hd.
    cbn [find]. unfold has_ID. rewrite Hid.
    rewrite !bool_decide_eq_false_2 by congruence. reflexivity.
  - cbn [find]. rewrite IH. reflexivity.
Qed.

Lemma same_intent_refl (d : Transaction) : same_intent d d.
Proof. repeat split. Qed.

Lemma same_intent_trans (d1 d2 d3 : Transaction) :
  same_intent d1 d2 -> same_intent d2 d3 -> same_intent d1 d3.
Proof. unfold same_intent. intros (?&?&?&?&?&?) (?&?&?&?&?&?). repeat split; congruence. Qed.

(** What one service operation does to a logged transaction: it stays in the
    log with the fields written at intent time, and it is what it was or has
    a terminal status. *)
Lemma apply_svc_document (w : World) (op : SvcOp) (id : string) (d : Transaction) :
  FindOne (has_ID id) (mongodb w) = Some d ->
  exists d',
    FindOne (has_ID id) (mongodb (apply_svc w op)) = Some d'
    /\ same_intent d d'
    /\ (d' = d \/ terminal (tx_Status d')).
Proof.
  intros Hd. destruct op as [initialBalance uuid now fails|req env|tx env]; cbn [apply_svc].
  - exists d. split; [exact Hd|]. split; [apply same_intent_refl|left; reflexivity].
  - exists d. split; [|split; [apply same_intent_refl|left; reflexivity]].
    destruct (CreateTransaction_log w req env) as [->|(x & fails & ->)]; [exact Hd|].
    destruct (concurrent_inserts_extends (se_concurrent env) (mongodb w)) as [k ->].
    destruct (InsertOne_cases (mongodb w ++ k) x fails) as [[e ->]|(-> & _)]; cbn [fst];
      rewrite ?FindOne_app, Hd; reflexivity.
  - destruct (ProcessTransaction_log w tx env) as [->|(status & before & after & Hterm & ->)].
    + exists d. split; [exact Hd|]. split; [apply same_intent_refl|left; reflexivity].
    + destruct (decide (id = tx_ID tx)) as [->|Hne].
      * rewrite FindOne_UpdateOne by apply set_status_ID. rewrite Hd.
        eexists. split; [reflexivity|]. split; [repeat split|right; exact Hterm].
      * rewrite FindOne_UpdateOne_ne by (try assumption; apply set_status_ID).
        exists d. split; [exact Hd|]. split; [apply same_intent_refl|left; reflexivity].
Qed.

(** X9.  A logged transaction is never deleted and the fields written at
    intent time (id, account, type, amount, reference, created_at) never
    change, whatever submissions, processings and account creations run. *)
Theorem logged_intent_is_immutable :
  forall (ops : list SvcOp) (w : World) (id : string) (d : Transaction),
    FindOne (has_ID id) (mongodb w) = Some d ->
    exists d',
      FindOne (has_ID id) (mongodb (run_svc w ops)) = Some d' /\ same_intent d d'.
Proof.
  unfold run_svc. induction ops as [|op ops IH]; intros w id d Hd; cbn [foldl].
  - exists d. split; [exact Hd|apply same_intent_refl].
  - destruct (apply_svc_document w op id d Hd) as (d1 & Hd1 & Hsame & _).
    destruct (IH _ _ _ Hd1) as (d' & Hd' & Hsame').
    exists d'. split; [exact Hd'|]. exact (same_intent_trans _ _ _ Hsame Hsame').
Qed.

Lemma logged_intent_is_immutable_witness :
  exists d',
    FindOne (has_ID "tx-1") (mongodb (run_svc pending_world sample_svc_ops)) = Some d'
    /\ same_intent pending_deposit d'.
Proof.
  apply (logged_intent_is_immutable sample_svc_ops pending_world "tx-1" pending_deposit).
  reflexivity.
Defined.

(** X10.  A transaction that the log holds as completed or failed is never
    pending again: after any submissions, processings and account creations
    its status is completed or failed. *)
Theorem terminal_status_is_never_pending_again :
  forall (ops : list SvcOp) (w : World) (id : string) (d : Transaction),
    FindOne (has_ID id) (mongodb w) = Some d ->
    terminal (tx_Status d) ->
    exists d',
      FindOne (has_ID id) (mongodb (run_svc w ops)) = Some d'
      /\ terminal (tx_Status d').
Proof.
  unfold run_svc. induction ops as [|op ops IH]; intros w id d Hd Hterm; cbn [foldl].
  - exists d. split; assumption.
  - destruct (apply_svc_document w op id d Hd) as (d1 & Hd1 & _ & [->|Hterm1]).
    + exact (IH _ _ _ Hd1 Hterm).
    + exact (IH _ _ _ Hd1 Hterm1).
Qed.

Lemma terminal_status_is_never_pending_again_witness :
  exists d',
    FindOne (has_ID "tx-1") (mongodb (run_svc settled_world sample_svc_ops)) = Some d'
    /\ terminal (tx_Status d').
Proof.
  apply (terminal_status_is_never_pending_again sample_svc_ops settled_world "tx-1"
           completed_deposit).
  - reflexivity.
  - left. reflexivity.
Defined.

(** * Further properties of the processor *)

Lemma UpdateAccountBalance_other_rows (db : Table) id d now f k :
  k <> id -> fst (Postgres.UpdateAccountBalance db id d now f) !! k = db !! k.
Proof.
  intros Hk.
  destruct (Postgres.UpdateAccountBalance db id d now f)
    as [db' [[before after]|e]] eqn:Hrun; cbn [fst].
  - apply UpdateAccountBalance_ok in Hrun as (a & _ & _ & _ & _ & ->).
    apply lookup_insert_ne. congruence.
  - pose proof (UpdateAccountBalance_error_keeps_table db id d now f e) as Hkeep.
    rewrite Hrun in Hkeep. cbn [fst snd] in Hkeep. rewrite Hkeep; reflexivity.
Qed.

Lemma UpdateOne_length (p : Transaction -> bool) (f : Transaction -> Transaction)
    (c : Collection) : length (UpdateOne p f c) = length c.
Proof.
  induction c as [|d c IH]; cbn [UpdateOne]; [reflexivity|].
  destruct (p d); cbn [length]; [reflexivity|]. rewrite IH. reflexivity.
Qed.

Lemma UpdateOne_no_match (p : Transaction -> bool) (f : Transaction -> Transaction)
    (c : Collection) : FindOne p c = None -> UpdateOne p f c = c.
Proof.
  unfold FindOne. induction c as [|d c IH]; cbn [UpdateOne find]; [reflexivity|].
  destruct (p d); [discriminate|]. intros Hc. rewrite (IH Hc). reflexivity.
Qed.

(** The balance store and the queue after [ProcessTransaction]. *)
Lemma ProcessTransaction_stores (w : World) (tx : Transaction) (env : ProcessEnv) :
  rabbitmq (fst (TransactionService.ProcessTransaction w tx env)) = rabbitmq w
  /\ (postgres (fst (TransactionService.ProcessTransaction w tx env)) = postgres w
      \/ postgres (fst (TransactionService.ProcessTransaction w tx env)) =
           fst (Postgres.UpdateAccountBalance (postgres w) (tx_AccountID tx)
                  (signed_amount tx) (pe_now_balance env) (pe_tx_faults env))).
Proof.
  unfold TransactionService.ProcessTransaction, TransactionService.markTransactionFailed,
    MongoDB.UpdateTransactionStatus.
  destruct (Postgres.GetAccount _ _ _).
  - cbn zeta. destruct (Postgres.UpdateAccountBalance _ _ _ _ _) as [db [[before after]|e]];
      destruct (pe_status_fails env);
      cbn [fst rabbitmq postgres with_mongodb with_postgres]; split; try reflexivity;
      right; reflexivity.
  - destruct (pe_status_fails env); cbn [fst rabbitmq postgres with_mongodb];
      split; try reflexivity; left; reflexivity.
Qed.

(** X11.  [ProcessTransaction] writes to one account and one log document:
    it publishes and consumes nothing, leaves every account other than the
    message's untouched, adds and removes no log document, and leaves every
    document with another id as it was. *)
Theorem process_touches_one_account_and_one_document :
  forall (w : World) (tx : Transaction) (env : ProcessEnv),
    rabbitmq (fst (TransactionService.ProcessTransaction w tx env)) = rabbitmq w
    /\ (forall k, k <> tx_AccountID tx ->
          postgres (fst (TransactionService.ProcessTransaction w tx env)) !! k
            = postgres w !! k)
    /\ length (mongodb (fst (TransactionService.ProcessTransaction w tx env)))
         = length (mongodb w)
    /\ (forall id, id <> tx_ID tx ->
          FindOne (has_ID id) (mongodb (fst (TransactionService.ProcessTransaction w tx env)))
            = FindOne (has_ID id) (mongodb w)).
Proof.
  intros w tx env.
  destruct (ProcessTransaction_stores w tx env) as [Hqueue Hpg].
  split; [exact Hqueue|]. split; [|split].
  - intros k Hk. destruct Hpg as [->| ->]; [reflexivity|].
    apply UpdateAccountBalance_other_rows. exact Hk.
  - destruct (ProcessTransaction_log w tx env) as [->|(status & before & after & _ & ->)];
      [reflexivity|apply UpdateOne_length].
  - intros id Hid.
    destruct (ProcessTransaction_log w tx env) as [->|(status & before & after & _ & ->)];
      [reflexivity|].
    apply FindOne_UpdateOne_ne; [exact Hid|apply set_status_ID].
Qed.

Lemma process_touches_one_account_and_one_document_witness :
  rabbitmq (fst (TransactionService.ProcessTransaction history_world pending_withdrawal
                   (no_process_faults 40 41))) = rabbitmq history_world
  /\ (forall k, k <> "acc-1" ->
        postgres (fst (TransactionService.ProcessTransaction history_world pending_withdrawal
                         (no_process_faults 40 41))) !! k = postgres history_world !! k)
  /\ length (mongodb (fst (TransactionService.ProcessTransaction history_world
                             pending_withdrawal (no_process_faults 40 41))))
       = length (mongodb history_world)
  /\ (forall id, id <> "tx-2" ->
        FindOne (has_ID id)
          (mongodb (fst (TransactionService.ProcessTransaction history_world
                           pending_withdrawal (no_process_faults 40 41))))
          = FindOne (has_ID id) (mongodb history_world)).
Proof.
  exact (process_touches_one_account_and_one_document history_world pending_withdrawal
           (no_process_faults 40 41)).
Defined.

(** An error from the balance mutation leaves the table as it was, whatever
    the column does. *)
Lemma F64_UpdateAccountBalance_error_keeps_table (column : F64.Column) (db : Table)
    id d now f e :
  snd (F64.UpdateAccountBalance column db id d now f) = Err e ->
  fst (F64.UpdateAccountBalance column db id d now f) = db.
Proof.
  unfold F64.UpdateAccountBalance.
  destruct (begin_fails f); [reflexivity|].
  destruct (query_balance_for_update _ _ _); [|reflexivity].
  cbn zeta. destruct (PrimFloat.ltb _ _); [reflexivity|].
  destruct (exec_fails f); [reflexivity|].
  destruct (column _); [|reflexivity].
  destruct (commit_fails f); [reflexivity|].
  discriminate.
Qed.

(** X12.  What the return of [ProcessTransaction] says about the balance
    store, in the arithmetic of the code.  On nil, and on the error of the
    final status update, the balance mutation ran without error and its write
    is committed: the account existed, [UpdateAccountBalance] returned a pair
    and the row holds what the column made of the second of the pair.  On
    every other error the balance store is what it was.  When the final
    status update fails the log is what it was too, so the committed mutation
    has no record there. *)
Theorem process_return_and_balance :
  forall (column : F64.Column) (w w' : F64.World) (tx : F64.Transaction)
         (env : ProcessEnv) (err : option error),
    F64.ProcessTransaction column w tx env = (w', err) ->
    ((err = None \/ exists cause, err = Some (Wrapf "failed to update transaction status" cause)) ->
     exists a before after cents,
       F64.postgres w !! F64.tx_AccountID tx = Some a
       /\ F64.UpdateAccountBalance column (F64.postgres w) (F64.tx_AccountID tx)
            (F64.signed_amount tx) (pe_now_balance env) (pe_tx_faults env)
          = (F64.postgres w', Ok (before, after))
       /\ column after = Ok cents
       /\ F64.postgres w' =
            <[F64.tx_AccountID tx :=
                mkAccount (acc_ID a) cents (acc_CreatedAt a) (pe_now_balance env)]>
              (F64.postgres w))
    /\ (err <> None ->
        (forall cause, err <> Some (Wrapf "failed to update transaction status" cause)) ->
        F64.postgres w' = F64.postgres w)
    /\ ((exists cause, err = Some (Wrapf "failed to update transaction status" cause)) ->
        F64.mongodb w' = F64.mongodb w).
Proof.
  intros column w w' tx env err Hrun.
  unfold F64.ProcessTransaction, F64.markTransactionFailed,
    F64.UpdateTransactionStatus in Hrun.
  destruct (Postgres.GetAccount _ _ _) as [acct|e].
  - cbn zeta in Hrun.
    destruct (F64.UpdateAccountBalance _ _ _ _ _ _) as [db [[before after]|e]] eqn:Hupd.
    + assert (F64.postgres w' = db) as Hdb
        by (destruct (pe_status_fails env); injection Hrun as <- _; reflexivity).
      split.
      { intros _. pose proof Hupd as Hok.
        apply F64_UpdateAccountBalance_ok in Hok as (a & cents & Ha & _ & _ & _ & Hcol & Hrow).
        exists a, before, after, cents. rewrite Hdb.
        split; [exact Ha|]. split; [reflexivity|]. split; [exact Hcol|exact Hrow]. }
      split.
      * intros Hsome Hother. destruct (pe_status_fails env); injection Hrun as _ <-.
        -- exfalso. exact (Hother _ eq_refl).
        -- contradiction.
      * intros [cause ->]. destruct (pe_status_fails env); injection Hrun as <- Herr;
          [reflexivity|discriminate].
    + pose proof (F64_UpdateAccountBalance_error_keeps_table column (F64.postgres w)
                    (F64.tx_AccountID tx) (F64.signed_amount tx) (pe_now_balance env)
                    (pe_tx_faults env) e) as Hkeep.
      rewrite Hupd in Hkeep. cbn [fst snd] in Hkeep. specialize (Hkeep eq_refl). subst db.
      destruct (pe_status_fails env); injection Hrun as <- <-;
        (split; [intros [Hnil|[cause Hc]]; discriminate|]);
        (split; [intros _ _; reflexivity|intros [cause Hc]; discriminate]).
  - destruct (pe_status_fails env); injection Hrun as <- <-;
      (split; [intros [Hnil|[cause Hc]]; discriminate|]);
      (split; [intros _ _; reflexivity|intros [cause Hc]; discriminate]).
Qed.

Lemma process_return_and_balance_witness :
  ((Some (Wrapf "failed to update transaction status"
            (Wrapf "failed to update transaction" ErrDriver)) = None
    \/ exists cause,
         Some (Wrapf "failed to update transaction status"
                 (Wrapf "failed to update transaction" ErrDriver))
           = Some (Wrapf "failed to update transaction status" cause)) ->
   exists a before after cents,
     F64.postgres million_world !! "acc-6" = Some a
     /\ F64.UpdateAccountBalance F64.exact_hundredths (F64.postgres million_world) "acc-6"
          (F64.signed_amount large_withdrawal) 30 no_tx_faults =
          (F64.postgres (fst (F64.ProcessTransaction F64.exact_hundredths million_world
                                large_withdrawal status_failure)), Ok (before, after))
     /\ F64.exact_hundredths after = Ok cents
     /\ F64.postgres (fst (F64.ProcessTransaction F64.exact_hundredths million_world
                             large_withdrawal status_failure)) =
          <["acc-6" := mkAccount (acc_ID a) cents (acc_CreatedAt a) 30]>
            (F64.postgres million_world))
  /\ (Some (Wrapf "failed to update transaction status"
              (Wrapf "failed to update transaction" ErrDriver)) <> None ->
      (forall cause,
          Some (Wrapf "failed to update transaction status"
                  (Wrapf "failed to update transaction" ErrDriver))
            <> Some (Wrapf "failed to update transaction status" cause)) ->
      F64.postgres (fst (F64.ProcessTransaction F64.exact_hundredths million_world
                           large_withdrawal status_failure)) = F64.postgres million_world)
  /\ ((exists cause,
          Some (Wrapf "failed to update transaction status"
                  (Wrapf "failed to update transaction" ErrDriver))
            = Some (Wrapf "failed to update transaction status" cause)) ->
      F64.mongodb (fst (F64.ProcessTransaction F64.exact_hundredths million_world
                          large_withdrawal status_failure)) = F64.mongodb million_world).
Proof.
  apply (process_return_and_balance F64.exact_hundredths million_world _ large_withdrawal
           status_failure).
  vm_compute. reflexivity.
Defined.

(** X13.  A message whose transaction is not in the log is settled all the
    same: with the account there, enough funds and no driver failure,
    [ProcessTransaction] commits the balance mutation and returns nil, and
    the log, having no document to update, is what it was. *)
Theorem unlogged_message_moves_balance :
  forall (w : World) (tx : Transaction) (env : ProcessEnv) (a : Account),
    FindOne (has_ID (tx_ID tx)) (mongodb w) = None ->
    postgres w !! tx_AccountID tx = Some a ->
    0 <= acc_Balance a + signed_amount tx ->
    pe_get_fails env = false ->
    pe_tx_faults env = no_tx_faults ->
    pe_status_fails env = false ->
    TransactionService.ProcessTransaction w tx env =
      (mkWorld
         (<[tx_AccountID tx := mkAccount (acc_ID a) (acc_Balance a + signed_amount tx)
                                 (acc_CreatedAt a) (pe_now_balance env)]> (postgres w))
         (mongodb w) (rabbitmq w),
       None).
Proof.
  intros w tx env a Hnone Ha Hpos Hget Hfaults Hstatus.
  unfold TransactionService.ProcessTransaction, Postgres.GetAccount. rewrite Hget, Ha.
  cbn zeta.
  rewrite Hfaults, (UpdateAccountBalance_commits _ _ _ _ _ Ha Hpos).
  unfold MongoDB.UpdateTransactionStatus. rewrite Hstatus.
  cbn [mongodb with_postgres]. rewrite (UpdateOne_no_match _ _ _ Hnone).
  reflexivity.
Qed.

Lemma unlogged_message_moves_balance_witness :
  TransactionService.ProcessTransaction fresh_world pending_deposit (no_process_faults 30 31) =
    (mkWorld
       (<[ "acc-1" := mkAccount "acc-1" (10000 + signed_amount pending_deposit) 5 30 ]>
          sample_table)
       [] [],
     None).
Proof.
  apply (unlogged_message_moves_balance fresh_world pending_deposit (no_process_faults 30 31)
           sample_account); try reflexivity.
  vm_compute. discriminate.
Defined.



(** * Further properties of the handlers *)

(** X15.  An account created through the handler with a balance that is not
    negative, under a fresh id and with no driver failure, is answered with
    201 and the account, is served by the account lookup with 200 and the
    same body, and changes the answer for no other id. *)
Theorem created_account_is_served :
  forall (db : Table) (req : CreateAccountRequest) (uuid : string) (now : Time),
    0 <= req_InitialBalance req ->
    db !! uuid = None ->
    Handler.CreateAccount db (Some req) uuid now false =
      (<[uuid := mkAccount uuid (req_InitialBalance req) now now]> db,
       ReplyAccount StatusCreated (mkAccountResponse uuid (req_InitialBalance req) now))
    /\ Handler.GetAccount (<[uuid := mkAccount uuid (req_InitialBalance req) now now]> db)
         uuid false =
         ReplyAccount StatusOK (mkAccountResponse uuid (req_InitialBalance req) now)
    /\ (forall k fails, k <> uuid ->
          Handler.GetAccount (<[uuid := mkAccount uuid (req_InitialBalance req) now now]> db)
            k fails = Handler.GetAccount db k fails).
Proof.
  intros db req uuid now Hpos Hfresh.
  unfold Handler.CreateAccount, Handler.GetAccount, AccountService.CreateAccount,
    AccountService.GetAccount, Postgres.CreateAccount, Postgres.GetAccount.
  destruct (Z.ltb_spec (req_InitialBalance req) 0); [lia|].
  rewrite Hfresh, lookup_insert_eq. split; [reflexivity|]. split; [reflexivity|].
  intros k fails Hk. rewrite lookup_insert_ne by congruence. reflexivity.
Qed.

Lemma created_account_is_served_witness :
  Handler.CreateAccount sample_table (Some (mkCreateAccountRequest 700)) "acc-2" 12 false =
    (<[ "acc-2" := mkAccount "acc-2" 700 12 12 ]> sample_table,
     ReplyAccount StatusCreated (mkAccountResponse "acc-2" 700 12))
  /\ Handler.GetAccount (<[ "acc-2" := mkAccount "acc-2" 700 12 12 ]> sample_table)
       "acc-2" false = ReplyAccount StatusOK (mkAccountResponse "acc-2" 700 12)
  /\ (forall k fails, k <> "acc-2" ->
        Handler.GetAccount (<[ "acc-2" := mkAccount "acc-2" 700 12 12 ]> sample_table) k fails
          = Handler.GetAccount sample_table k fails).
Proof.
  apply (created_account_is_served sample_table (mkCreateAccountRequest 700) "acc-2" 12).
  - simpl. lia.
  - reflexivity.
Defined.

(** X16.  The account-creation handler creates an account only when it
    answers 201: with any other status the table is what it was.  A negative
    initial balance is answered with 500 and the service's message, a body
    the decoder refuses with 400. *)
Theorem account_creation_replies :
  forall (db db' : Table) (body : option CreateAccountRequest) (uuid : string) (now : Time)
         (fails : bool) (r : AccountReply),
    Handler.CreateAccount db body uuid now fails = (db', r) ->
    (reply_status r <> StatusCreated -> db' = db)
    /\ (reply_status r = StatusCreated ->
        exists req,
          body = Some req /\ 0 <= req_InitialBalance req /\ db !! uuid = None
          /\ db' = <[uuid := mkAccount uuid (req_InitialBalance req) now now]> db)
    /\ (forall req, body = Some req -> req_InitialBalance req < 0 ->
          r = ReplyError StatusInternalServerError
                (ErrorOf (Errorf "initial balance cannot be negative")))
    /\ (body = None -> reply_status r = StatusBadRequest).
Proof.
  intros db db' body uuid now fails r.
  unfold Handler.CreateAccount, AccountService.CreateAccount, Postgres.CreateAccount.
  destruct body as [req|].
  - destruct (Z.ltb_spec (req_InitialBalance req) 0) as [Hneg|Hpos].
    + intros [= <- <-]. cbn [reply_status]. repeat split; try discriminate.
    + destruct fails.
      * intros [= <- <-]. cbn [reply_status]. repeat split; try discriminate.
        intros req' [= <-]. lia.
      * destruct (db !! uuid) eqn:Hfresh.
        -- intros [= <- <-]. cbn [reply_status]. repeat split; try discriminate.
           intros req' [= <-]. lia.
        -- intros [= <- <-]. cbn [reply_status]. split; [contradiction|]. split.
           ++ intros _. exists req. repeat split. exact Hpos.
           ++ split; [|discriminate]. intros req' [= <-]. lia.
  - intros [= <- <-]. cbn [reply_status]. repeat split; try discriminate.
Qed.

Lemma account_creation_replies_witness :
  (reply_status (ReplyError StatusInternalServerError
                   (ErrorOf (Errorf "initial balance cannot be negative")))
     <> StatusCreated -> sample_table = sample_table)
  /\ (reply_status (ReplyError StatusInternalServerError
                      (ErrorOf (Errorf "initial balance cannot be negative")))
        = StatusCreated ->
      exists req,
        Some (mkCreateAccountRequest (-1)) = Some req /\ 0 <= req_InitialBalance req
        /\ sample_table !! "acc-2" = None
        /\ sample_table = <[ "acc-2" := mkAccount "acc-2" (req_InitialBalance req) 12 12 ]>
                            sample_table)
  /\ (forall req, Some (mkCreateAccountRequest (-1)) = Some req -> req_InitialBalance req < 0 ->
        ReplyError StatusInternalServerError
          (ErrorOf (Errorf "initial balance cannot be negative")) =
        ReplyError StatusInternalServerError
          (ErrorOf (Errorf "initial balance cannot be negative")))
  /\ (Some (mkCreateAccountRequest (-1)) = None ->
      reply_status (ReplyError StatusInternalServerError
                      (ErrorOf (Errorf "initial balance cannot be negative")))
        = StatusBadRequest).
Proof.
  apply (account_creation_replies sample_table sample_table
           (Some (mkCreateAccountRequest (-1))) "acc-2" 12 false).
  reflexivity.
Defined.

(** X17.  When the transaction-creation handler answers 400 or 404, nothing
    was written: log, queue and balances are what they were.  A request for
    an account that does not exist is answered with 404. *)
Theorem submit_rejections_write_nothing :
  forall (w w' : World) (body : option TransactionRequest) (fails : bool) (env : SubmitEnv)
         (r : Response),
    Handler.CreateTransaction w body fails env = (w', r) ->
    (response_status r = StatusBadRequest \/ response_status r = StatusNotFound -> w' = w)
    /\ (forall req, body = Some req -> postgres w !! req_AccountID req = None ->
          r = RespError StatusNotFound (Message "Account not found")).
Proof.
  intros w w' body fails env r.
  unfold Handler.CreateTransaction, AccountService.GetAccount, Postgres.GetAccount.
  destruct body as [req|].
  - destruct fails.
    + intros [= <- <-]. split; [reflexivity|]. intros req' [= <-] _. reflexivity.
    + destruct (postgres w !! req_AccountID req) eqn:Hacct.
      * destruct (TransactionService.CreateTransaction w req env) as [w1 [tx|e]];
          intros [= <- <-]; cbn [response_status];
          (split; [intros [Hs|Hs]; discriminate Hs|]);
          intros req' [= <-] Hnone; rewrite Hnone in Hacct; discriminate.
      * intros [= <- <-]. split; [reflexivity|]. intros req' [= <-] _. reflexivity.
  - intros [= <- <-]. split; [reflexivity|]. intros req' [=].
Qed.

Lemma submit_rejections_write_nothing_witness :
  (response_status (RespError StatusNotFound (Message "Account not found")) = StatusBadRequest
   \/ response_status (RespError StatusNotFound (Message "Account not found")) = StatusNotFound
   -> fresh_world = fresh_world)
  /\ (forall req,
        Some (mkTransactionRequest "acc-7" Withdrawal 100 "r-7") = Some req ->
        postgres fresh_world !! req_AccountID req = None ->
        RespError StatusNotFound (Message "Account not found") =
        RespError StatusNotFound (Message "Account not found")).
Proof.
  apply (submit_rejections_write_nothing fresh_world fresh_world
           (Some (mkTransactionRequest "acc-7" Withdrawal 100 "r-7")) false quiet_submit).
  reflexivity.
Defined.

Lemma FindOne_elem (p : Transaction -> bool) (c : Collection) (d : Transaction) :
  FindOne p c = Some d -> d ∈ c.
Proof.
  unfold FindOne. induction c as [|x c IH]; cbn [find]; [discriminate|].
  destruct (p x).
  - intros [= ->]. apply elem_of_cons. left. reflexivity.
  - intros Hc. apply elem_of_cons. right. exact (IH Hc).
Qed.

Lemma FindOne_by_unique_id (c : Collection) (d : Transaction) :
  NoDup (tx_ID <$> c) -> d ∈ c -> FindOne (has_ID (tx_ID d)) c = Some d.
Proof.
  unfold FindOne. induction c as [|x c IH]; intros Hids Hd; [inversion Hd|].
  cbn [fmap list_fmap] in Hids. apply NoDup_cons in Hids as [Hx Hids].
  cbn [find]. unfold has_ID at 1. apply elem_of_cons in Hd as [->|Hd].
  - rewrite bool_decide_eq_true_2 by reflexivity. reflexivity.
  - case_bool_decide as Hsame.
    + exfalso. apply Hx. rewrite Hsame. apply list_elem_of_fmap_2. exact Hd.
    + exact (IH Hids Hd).
Qed.

(** X18.  A transaction for which the creation handler answers 201 can be
    read back: in a log with pairwise distinct ids and references, the lookup
    handler called with the id of the answer returns 200 with that
    transaction. *)
Theorem submitted_transaction_is_served :
  forall (w w' : World) (body : option TransactionRequest) (fails : bool) (env : SubmitEnv)
         (r : TransactionResponse),
    unique_keys (mongodb w) ->
    Handler.CreateTransaction w body fails env = (w', RespTransaction StatusCreated r) ->
    exists tx,
      r = created_response tx
      /\ Handler.GetTransaction w' (resp_ID r) false = RespTransaction StatusOK (full_response tx).
Proof.
  intros w w' body fails env r Hunique.
  unfold Handler.CreateTransaction.
  destruct body as [req|]; [|discriminate].
  destruct (AccountService.GetAccount _ _ _); [|discriminate].
  destruct (TransactionService.CreateTransaction w req env) as [w1 [tx|e]] eqn:Hsubmit;
    [|discriminate].
  intros [= <- <-]. exists tx. split; [reflexivity|].
  pose proof (apply_svc_unique w (OpSubmit req env) Hunique) as [Hids _].
  cbn [apply_svc] in Hids. rewrite Hsubmit in Hids. cbn [fst] in Hids.
  apply CreateTransaction_ok_logged, FindOne_elem in Hsubmit.
  unfold Handler.GetTransaction, TransactionService.GetTransaction, MongoDB.GetTransactionByID.
  cbn [resp_ID created_response].
  rewrite (FindOne_by_unique_id _ _ Hids Hsubmit). reflexivity.
Qed.

Lemma submitted_transaction_is_served_witness :
  exists tx,
    created_response logged_deposit = created_response tx
    /\ Handler.GetTransaction
         (fst (Handler.CreateTransaction history_world_2 (Some deposit_request) false
                 quiet_submit))
         (resp_ID (created_response logged_deposit)) false =
       RespTransaction StatusOK (full_response tx).
Proof.
  apply (submitted_transaction_is_served history_world_2 _ (Some deposit_request) false
           quiet_submit).
  - split; vm_compute; repeat constructor; set_solver.
  - vm_compute. reflexivity.
Defined.

(** * Further properties of the two goroutines *)

(** X19.  When the processor has returned while the consumer stands at its
    send on [txChan], nothing moves any more: the consumer is blocked (the
    send is not under the select on ctx.Done()), so the delivery it holds is
    neither acknowledged nor rejected, whatever the scheduler does. *)
Theorem consumer_blocks_after_processor_exit :
  forall (s s' : System) (d : Delivery) (tx : Transaction) (schedule : list Move),
    sys_consumer s = CSend d tx ->
    sys_processor s = PExit ->
    run s schedule = Some s' ->
    schedule = [] /\ s' = s.
Proof.
  intros s s' d tx schedule Hc Hp Hrun.
  destruct schedule as [|m schedule]; cbn [run] in Hrun.
  - injection Hrun as <-. split; reflexivity.
  - exfalso. destruct m; unfold step in Hrun; rewrite ?Hc, ?Hp in Hrun; discriminate.
Qed.

Lemma consumer_blocks_after_processor_exit_witness :
  run (start pending_world one_delivery) [ConsumerMove; ProcessorStops] = Some stuck_system
  /\ @nil Move = [] /\ stuck_system = stuck_system.
Proof.
  split; [vm_compute; reflexivity|].
  apply (consumer_blocks_after_processor_exit stuck_system stuck_system
           (mkDelivery 1 (JSON pending_deposit)) pending_deposit []); reflexivity.
Defined.

(** X20.  Transactions reach the processor in the order of their deliveries,
    each decodable delivery at most once and no other: in every reachable
    state the tags handed over [txChan] are a prefix of the tags of the
    decodable deliveries. *)
Theorem processing_follows_delivery_order :
  forall (w : World) (msgs : list Delivery) (schedule : list Move) (s : System),
    run (start w msgs) schedule = Some s ->
    handed_over s `prefix_of` (dlv_tag <$> List.filter decodes msgs).
Proof.
  intros w msgs schedule s Hrun.
  destruct (run_invariant msgs schedule _ _ (start_invariant w msgs) Hrun)
    as (consumed & Hmsgs & _ & Hhanded & Hdec).
  rewrite <- Hhanded, Hmsgs, !List.filter_app, !fmap_app.
  apply prefix_app.
  destruct (sys_consumer s) as [|d tx|d|]; cbn [handed_unacked unanswered] in *;
    try apply prefix_nil.
  inversion Hdec as [|? ? Hd _]; subst. cbn [List.filter]. rewrite Hd.
  cbn [fmap list_fmap]. exists (dlv_tag <$> List.filter decodes (sys_msgs s)). reflexivity.
Qed.

Lemma processing_follows_delivery_order_witness :
  handed_over after_processor_first `prefix_of` (dlv_tag <$> List.filter decodes one_delivery).
Proof.
  apply (processing_follows_delivery_order pending_world one_delivery processor_first).
  vm_compute. reflexivity.
Defined.

(** * Further properties of the listing *)

Lemma NoDup_fmap_inj_on (l : list Transaction) (x y : Transaction) :
  NoDup (tx_CreatedAt <$> l) -> x ∈ l -> y ∈ l -> tx_CreatedAt x = tx_CreatedAt y -> x = y.
Proof.
  induction l as [|z l IH]; intros Hnodup Hx Hy Hkey; [inversion Hx|].
  cbn [fmap list_fmap] in Hnodup. apply NoDup_cons in Hnodup as [Hz Hnodup].
  apply elem_of_cons in Hx as [->|Hx]; apply elem_of_cons in Hy as [->|Hy].
  - reflexivity.
  - exfalso. apply Hz. rewrite Hkey. apply list_elem_of_fmap_2. exact Hy.
  - exfalso. apply Hz. rewrite <- Hkey. apply list_elem_of_fmap_2. exact Hx.
  - exact (IH Hnodup Hx Hy Hkey).
Qed.

(** With pairwise distinct created_at there is one listing. *)
Lemma listing_unique (c : Collection) (accountID : string) (l : list Transaction) :
  NoDup (tx_CreatedAt <$> List.filter (has_AccountID accountID) c) ->
  is_listing c accountID l ->
  l = merge_sort newer_or_same (List.filter (has_AccountID accountID) c).
Proof.
  intros Hdistinct [Hperm Hsorted].
  apply (StronglySorted_unique_strong newer_or_same).
  - intros x1 x2 Hx1 Hx2 H12 H21.
    apply (NoDup_fmap_inj_on _ _ _ Hdistinct).
    + rewrite <- Hperm. exact Hx1.
    + rewrite <- (merge_sort_Permutation newer_or_same). exact Hx2.
    + unfold newer_or_same in *. lia.
  - exact Hsorted.
  - apply StronglySorted_merge_sort; apply _.
  - rewrite Hperm. symmetry. apply merge_sort_Permutation.
Qed.

(** X21.  When the transactions of an account have pairwise distinct
    created_at, the page for a positive limit and an offset that is not
    negative is that slice of any newest-first listing of the account's
    documents, and consecutive pages tile the listing: the page at [offset]
    followed by the page at [offset + limit] is the page of twice the limit
    at [offset]; no transaction is skipped and none is returned twice. *)
Theorem consecutive_pages_tile :
  forall (c : Collection) (accountID : string) (limit offset : Z),
    0 < limit ->
    0 <= offset ->
    NoDup (tx_CreatedAt <$> List.filter (has_AccountID accountID) c) ->
    (forall l, is_listing c accountID l ->
       MongoDB.GetTransactionsByAccountID c accountID limit offset false =
         Ok (take (Z.to_nat limit) (drop (Z.to_nat offset) l)))
    /\ exists first second,
         MongoDB.GetTransactionsByAccountID c accountID limit offset false = Ok first
         /\ MongoDB.GetTransactionsByAccountID c accountID limit (offset + limit) false
              = Ok second
         /\ MongoDB.GetTransactionsByAccountID c accountID (2 * limit) offset false
              = Ok (first ++ second).
Proof.
  intros c accountID limit offset Hlimit Hoffset Hdistinct.
  unfold MongoDB.GetTransactionsByAccountID, apply_limit. cbn [orb].
  destruct (Z.ltb_spec offset 0); [lia|].
  destruct (Z.ltb_spec (offset + limit) 0); [lia|].
  destruct (Z.eqb_spec limit 0); [lia|].
  destruct (Z.eqb_spec (2 * limit) 0); [lia|].
  rewrite !Z.abs_eq by lia. split.
  - intros l Hl. rewrite (listing_unique c accountID l Hdistinct Hl). reflexivity.
  - eexists _, _. split; [reflexivity|]. split; [reflexivity|]. f_equal.
    replace (Z.to_nat (offset + limit)) with (Z.to_nat offset + Z.to_nat limit)%nat by lia.
    replace (Z.to_nat (2 * limit)) with (Z.to_nat limit + Z.to_nat limit)%nat by lia.
    rewrite <- drop_drop. symmetry. apply take_take_drop.
Qed.

Lemma consecutive_pages_tile_witness :
  (forall l, is_listing (mongodb history_world) "acc-1" l ->
     MongoDB.GetTransactionsByAccountID (mongodb history_world) "acc-1" 1 0 false =
       Ok (take (Z.to_nat 1) (drop (Z.to_nat 0) l)))
  /\ exists first second,
       MongoDB.GetTransactionsByAccountID (mongodb history_world) "acc-1" 1 0 false = Ok first
       /\ MongoDB.GetTransactionsByAccountID (mongodb history_world) "acc-1" 1 (0 + 1) false
            = Ok second
       /\ MongoDB.GetTransactionsByAccountID (mongodb history_world) "acc-1" (2 * 1) 0 false
            = Ok (first ++ second).
Proof.
  apply (consecutive_pages_tile (mongodb history_world) "acc-1" 1 0); [lia|lia|].
  apply (bool_decide_unpack _). vm_compute. exact I.
Defined.

(** X22.  The gateway called with limit 0 and offset 0 returns every
    transaction of the account and nothing else, newest first: limit 0 is no
    limit. *)
Theorem unlimited_listing_is_complete :
  forall (c : Collection) (accountID : string),
    exists all,
      MongoDB.GetTransactionsByAccountID c accountID 0 0 false = Ok all
      /\ all ≡ₚ List.filter (has_AccountID accountID) c
      /\ StronglySorted newer_or_same all.
Proof.
  intros c accountID. eexists. split; [reflexivity|].
  cbn [Z.to_nat drop]. split.
  - apply merge_sort_Permutation.
  - apply StronglySorted_merge_sort; apply _.
Qed.

(** * Further properties of the whole service *)

Lemma CreateTransaction_postgres (w : World) (req : TransactionRequest) (env : SubmitEnv) :
  postgres (fst (TransactionService.CreateTransaction w req env)) = postgres w.
Proof.
  unfold TransactionService.CreateTransaction.
  destruct (MongoDB.GetTransactionByReference _ _ _) as [[existing|]|e]; try reflexivity.
  cbn zeta. destruct (MongoDB.CreateTransaction _ _ _ _ _) as [[c tx] [e|]]; [reflexivity|].
  destruct (RabbitMQ.PublishTransaction _ _ _) as [q [e|]]; reflexivity.
Qed.

Lemma apply_svc_nonnegative (w : World) (op : SvcOp) :
  balances_nonnegative (postgres w) -> balances_nonnegative (postgres (apply_svc w op)).
Proof.
  intros Hw. destruct op as [initialBalance uuid now fails|req env|tx env]; cbn [apply_svc].
  - cbn [postgres with_postgres]. apply CreateAccount_nonnegative. exact Hw.
  - rewrite CreateTransaction_postgres. exact Hw.
  - destruct (ProcessTransaction_stores w tx env) as [_ [->| ->]]; [exact Hw|].
    apply UpdateAccountBalance_nonnegative. exact Hw.
Qed.

(** X23.  No run of the service overdraws an account: whatever account
    creations, submissions (of any amount and type) and processings (of any
    message) run, with any failures, balances that are not negative stay so. *)
Theorem service_never_overdraws :
  forall (ops : list SvcOp) (w : World),
    balances_nonnegative (postgres w) ->
    balances_nonnegative (postgres (run_svc w ops)).
Proof.
  unfold run_svc. induction ops as [|op ops IH]; intros w Hw; cbn [foldl]; [exact Hw|].
  apply IH, apply_svc_nonnegative, Hw.
Qed.

Lemma service_never_overdraws_witness :
  balances_nonnegative (postgres (run_svc (mkWorld ∅ [] []) sample_svc_ops)).
Proof.
  apply (service_never_overdraws sample_svc_ops (mkWorld ∅ [] [])).
  intros id a Hid. cbn [postgres] in Hid. rewrite lookup_empty in Hid. discriminate.
Defined.

(** The queue after [CreateTransaction]: what it was, or what it was and one
    more message, the transaction now logged under its id. *)
Lemma CreateTransaction_queue (w : World) (req : TransactionRequest) (env : SubmitEnv) :
  rabbitmq (fst (TransactionService.CreateTransaction w req env)) = rabbitmq w
  \/ exists tx,
       rabbitmq (fst (TransactionService.CreateTransaction w req env)) = rabbitmq w ++ [JSON tx]
       /\ FindOne (has_ID (tx_ID tx))
            (mongodb (fst (TransactionService.CreateTransaction w req env))) = Some tx.
Proof.
  unfold TransactionService.CreateTransaction.
  destruct (MongoDB.GetTransactionByReference _ _ _) as [[existing|]|e];
    [left; reflexivity| |left; reflexivity].
  cbn zeta. unfold MongoDB.CreateTransaction. cbn [mongodb with_mongodb].
  match goal with |- context [InsertOne ?c ?d ?f] =>
    set (stamped := d);
    destruct (InsertOne_cases c stamped f) as [[e' ->]|(-> & Hid & _)]; [left; reflexivity|]
  end.
  cbn [mongodb with_mongodb rabbitmq]. unfold RabbitMQ.PublishTransaction.
  destruct (se_publish_fails env); [left; reflexivity|].
  right. exists stamped. cbn [fst rabbitmq mongodb with_rabbitmq with_mongodb].
  split; [reflexivity|].
  rewrite FindOne_app, Hid. unfold FindOne, has_ID. cbn [find].
  rewrite bool_decide_eq_true_2 by reflexivity. reflexivity.
Qed.

Lemma same_submission_refl (tx : Transaction) : same_submission tx tx.
Proof. repeat split. Qed.

Lemma same_submission_intent (m d d' : Transaction) :
  same_submission m d -> same_intent d d' -> same_submission m d'.
Proof.
  unfold same_submission, same_intent.
  intros (?&?&?&?&?) (?&?&?&?&?&?). repeat split; congruence.
Qed.

Lemma apply_svc_queue_agrees_with_log (w : World) (op : SvcOp) :
  queue_agrees_with_log w -> queue_agrees_with_log (apply_svc w op).
Proof.
  intros Hw.
  assert (forall body, body ∈ rabbitmq w ->
            exists tx d, body = JSON tx
              /\ FindOne (has_ID (tx_ID tx)) (mongodb (apply_svc w op)) = Some d
              /\ same_submission tx d) as Hold.
  { intros body Hbody. destruct (Hw body Hbody) as (tx & d & -> & Hd & Hsame).
    destruct (apply_svc_document w op (tx_ID tx) d Hd) as (d' & Hd' & Hsame' & _).
    exists tx, d'. split; [reflexivity|]. split; [exact Hd'|].
    exact (same_submission_intent _ _ _ Hsame Hsame'). }
  destruct op as [initialBalance uuid now fails|req env|tx env]; cbn [apply_svc] in *.
  - exact Hold.
  - intros body Hbody.
    destruct (CreateTransaction_queue w req env) as [Hq|(tx & Hq & Htx)];
      rewrite Hq in Hbody; [exact (Hold body Hbody)|].
    apply elem_of_app in Hbody as [Hbody|Hbody]; [exact (Hold body Hbody)|].
    apply list_elem_of_singleton in Hbody. subst body.
    exists tx, tx. split; [reflexivity|]. split; [exact Htx|apply same_submission_refl].
  - intros body Hbody.
    destruct (ProcessTransaction_stores w tx env) as [Hq _]. rewrite Hq in Hbody.
    exact (Hold body Hbody).
Qed.

(** X24.  Every message on the queue is the message of a logged transaction:
    over any run of the service, each message decodes, and the log holds a
    document under the message's id with the message's account, type, amount
    and reference. *)
Theorem published_messages_are_logged :
  forall (ops : list SvcOp) (w : World),
    queue_agrees_with_log w -> queue_agrees_with_log (run_svc w ops).
Proof.
  unfold run_svc. induction ops as [|op ops IH]; intros w Hw; cbn [foldl]; [exact Hw|].
  apply IH, apply_svc_queue_agrees_with_log, Hw.
Qed.

Lemma published_messages_are_logged_witness :
  queue_agrees_with_log (run_svc fresh_world sample_svc_ops).
Proof.
  apply (published_messages_are_logged sample_svc_ops fresh_world).
  intros body Hbody. cbn [rabbitmq fresh_world] in Hbody. inversion Hbody.
Defined.
